(** * lab4b: temperature monitor with button, command reader and shutdown flag

    A shallow embedding of [lab4b.c].  The program runs three threads (the
    sampling loop of [main], [check_button] and [get_commands]) over four
    global variables.  Every access to a global is a single load or store of
    a [volatile int], an [int] or a [char]; the embedding gives each thread
    a program counter and a step function, and a run of the process is an
    interleaving of thread steps and signal deliveries, each step taking the
    answers of the operating system (time, sensor value, return codes of
    [select], [read], [write], [close]) from an [env] record. *)

From Stdlib Require Import ZArith Bool Ascii String QArith List Lia.
Import ListNotations.
Local Open Scope Z_scope.

(** ** C library functions used by the program *)

Module LibC.

Definition char := ascii.

Definition NUL : char := Ascii.zero.

(** [unsigned char] value of a character. *)
Definition uchar (c : char) : Z := Z.of_N (N_of_ascii c).

(** A string literal: its characters, the terminating NUL left implicit. *)
Definition lit (s : string) : list char := list_ascii_of_string s.

(** Character at the head of a C string; past the end of a literal this
    is the terminating NUL. *)
Definition peek (s : list char) : char := hd NUL s.

(** [strncmp(s1, s2, n)]: compares at most [n] characters, stops at the
    first difference or at a NUL, returns the difference of the two
    characters as [unsigned char]. *)
Fixpoint strncmp (s1 s2 : list char) (n : nat) : Z :=
  match n with
  | O => 0
  | S n' =>
      let c1 := peek s1 in
      let c2 := peek s2 in
      if Ascii.eqb c1 c2
      then if Ascii.eqb c1 NUL then 0 else strncmp (tl s1) (tl s2) n'
      else uchar c1 - uchar c2
  end.

(** [isspace] in the C locale: space, \t, \n, \v, \f, \r. *)
Definition isspace (c : char) : bool :=
  let n := uchar c in (n =? 32) || ((9 <=? n) && (n <=? 13)).

Definition isdigit (c : char) : bool :=
  let n := uchar c in (48 <=? n) && (n <=? 57).

Definition INT_MAX : Z := 2147483647.
Definition INT_MIN : Z := -2147483648.

Fixpoint skip_space (s : list char) : list char :=
  match s with
  | c :: s' => if isspace c then skip_space s' else s
  | [] => []
  end.

(** Value of the longest run of decimal digits at the head of [s],
    continuing from the accumulator [acc]. *)
Fixpoint digits (acc : Z) (s : list char) : Z :=
  match s with
  | c :: s' => if isdigit c then digits (10 * acc + (uchar c - 48)) s' else acc
  | [] => acc
  end.

Definition clamp (lo hi v : Z) : Z := Z.max lo (Z.min hi v).

(** [atoi(s)] is [(int) strtol(s, NULL, 10)]: leading white space is
    skipped, an optional sign is read, then decimal digits up to the first
    character that is not one; no digits give 0.  [strtol] saturates at
    the bounds of [long], which on the 32-bit board this program is built
    for are the bounds of [int]. *)
Definition atoi (s : list char) : Z :=
  let s1 := skip_space s in
  match s1 with
  | c :: s2 =>
      if Ascii.eqb c "-"%char then clamp INT_MIN INT_MAX (- digits 0 s2)
      else if Ascii.eqb c "+"%char then clamp INT_MIN INT_MAX (digits 0 s2)
      else clamp INT_MIN INT_MAX (digits 0 s1)
  | [] => 0
  end.

(** The decimal numeral of an [int], as ["%d"] prints it: the text a user
    types after [PERIOD=]. *)
Definition digit_char (d : Z) : char := ascii_of_N (Z.to_N (48 + d)).

Fixpoint decimal_pos (fuel : nat) (n : Z) (acc : list char) : list char :=
  match fuel with
  | O => acc
  | S fuel' =>
      let acc' := digit_char (n mod 10) :: acc in
      if n <? 10 then acc' else decimal_pos fuel' (n / 10) acc'
  end.

Definition decimal (z : Z) : list char :=
  if z <? 0 then "-"%char :: decimal_pos 10 (- z) []
  else decimal_pos 10 z [].

(** Conversion of an [int] to [unsigned int], as in [sleep(period)]. *)
Definition to_unsigned (v : Z) : Z := v mod 2 ^ 32.

End LibC.
Import LibC.

(** ** Floating-point arithmetic

  [get_temperature] computes in [double] and stores in [float].  The
  arithmetic of the two formats and [log] of libm are taken as an
  interface; every theorem about [get_temperature] holds for each of its
  implementations. *)

Class FloatOps : Type := {
float : Type;
double : Type;
(** [(float) i] for an [int] *)
float_of_int : Z -> float;
(** promotion of an [int] operand to [double] *)
double_of_int : Z -> double;
(** promotion of a [float] operand to [double] *)
double_of_float : float -> double;
(** rounding of a [double] stored into a [float] variable *)
float_of_double : double -> float;
(** the [double] denoted by a decimal literal such as [298.15] *)
dlit : Q -> double;
dadd : double -> double -> double;
dsub : double -> double -> double;
dmul : double -> double -> double;
ddiv : double -> double -> double;
(** [log] of math.h *)
dlog : double -> double
}.

Section Temperature.

Context {FO : FloatOps}.

(** [float get_temperature(int adc_val, char units)] *)
Definition get_temperature (adc_val : Z) (units : char) : float :=
  let B := 4275 in
  let R : float :=
    float_of_double
      (dsub (ddiv (dlit 1023) (double_of_float (float_of_int adc_val)))
            (dlit 1)) in
  let temp : float :=
    float_of_double
      (dsub (ddiv (dlit 1)
                  (dadd (ddiv (dlog (double_of_float R)) (double_of_int B))
                        (ddiv (dlit 1) (dlit (29815 # 100)))))
            (dlit (27315 # 100))) in
  (* Default to celcius *)
  if Ascii.eqb units "F"%char
  then float_of_double
         (dadd (ddiv (dmul (double_of_float temp) (dlit 9)) (dlit 5))
               (dlit 32))
  else temp.

End Temperature.

(** The free implementation of the interface: every operation builds the
  term that names it.  Two results are equal in it exactly when the
  program performed the same operations on the same operands, so it
  serves to evaluate the definitions on concrete inputs. *)
Inductive sym : Type :=
| SInt (i : Z)
| SLit (q : Q)
| SWiden (x : sym)
| SRound (x : sym)
| SAdd (x y : sym)
| SSub (x y : sym)
| SMul (x y : sym)
| SDiv (x y : sym)
| SLog (x : sym).

#[export] Instance SymFloat : FloatOps := {|
float := sym;
double := sym;
float_of_int := SInt;
double_of_int := SInt;
double_of_float := SWiden;
float_of_double := SRound;
dlit := SLit;
dadd := SAdd;
dsub := SSub;
dmul := SMul;
ddiv := SDiv;
dlog := SLog
|}.

(** ** The process *)

Definition SIGINT : Z := 2.

Section Program.

Context {FO : FloatOps}.

(** Contents of the 32-byte [buff] of [main] after [sprintf]:
    ["%s %.1f\n"] of the time and the temperature, or ["%s SHUTDOWN\n"]. *)
Inductive record : Type :=
| Sample (timebuff : string) (temperature : float)
| Shutdown (timebuff : string).

(** What a successful [write] appended to the log file. *)
Inductive log_entry : Type :=
| LogRecord (buff : record)        (* write(logfd, buff, 32) in main *)
| LogCommand (bytes : list char).  (* write(fd, buff, nbytes) in get_commands *)

(** What was sent to stderr. *)
Inductive diag : Type :=
| Perror (msg : string)
| Fprintf (text : string).

(** Program points of the sampling loop and the epilogue of [main]. *)
Inductive main_pc : Type :=
| M_while                         (* while(!user_int) *)
| M_if_reports                    (* if(gen_reports) *)
| M_sample                        (* time, sensor, sprintf, fprintf(stdout) *)
| M_log (buff : record)           (* if(logfile != NULL) write(logfd, buff, 32) *)
| M_sleep                         (* sleep(period) *)
| M_shutdown                      (* time, sprintf SHUTDOWN, fprintf(stdout) *)
| M_shutdown_log (buff : record)  (* if(logfile != NULL) write(logfd, buff, 32) *)
| M_close                         (* if(logfile != NULL) close(logfd) *)
| M_join_button                   (* pthread_join(button_thread, NULL) *)
| M_join_input                    (* pthread_join(input_thread, NULL) *)
| M_return.                       (* close io; return 0 *)

(** Program points of [get_commands]. *)
Inductive input_pc : Type :=
| G_while                         (* while(!user_int) *)
| G_select                        (* select(..., &timeout) *)
| G_read                          (* nbytes = read(0, buff, 128) *)
| G_log (nbytes : nat)            (* if(fd > 0) write(fd, buff, nbytes) *)
| G_dispatch                      (* the strncmp chain *)
| G_exited.                       (* return NULL or pthread_exit(NULL) *)

(** Program points of [check_button]. *)
Inductive button_pc : Type :=
| B_while                         (* while(!user_int) *)
| B_read                          (* mraa_gpio_read(button) *)
| B_sleep                         (* nanosleep(&timer, NULL) *)
| B_exited.

Record state : Type := mkState {
  (* the four globals *)
  user_int : Z;
  gen_reports : Z;
  period : Z;
  scale : char;
  (* locals of main fixed before the threads start *)
  logfile : bool;                 (* logfile != NULL *)
  logfd : Z;
  (* the three threads *)
  main_at : main_pc;
  input_at : input_pc;
  buff : list char;               (* char buff[128] of get_commands *)
  button_at : button_pc;
  (* what the process has done so far, oldest first *)
  stdout : list record;
  stderr : list diag;
  log : list log_entry;
  sleeps : list Z;                (* arguments of the calls of sleep *)
  (* Some c once the process has ended: its exit status c, or
     128 + sig when the signal sig has terminated it *)
  exit_status : option Z;
  (* the disposition of SIGINT is still signal_handler, not SIG_DFL *)
  handler_installed : bool
}.

(** Answers of the environment consulted by one step. *)
Record env : Type := mkEnv {
  now : string;                   (* strftime(timebuff, 32, "%T", localtime) *)
  adc : Z;                        (* mraa_aio_read(adc_a0) *)
  write_rc : Z;                   (* return value of write *)
  close_rc : Z;                   (* return value of close *)
  select_rc : Z;                  (* return value of select *)
  read_in : option (list char);   (* None: read < 0; Some d: the bytes read *)
  gpio : Z                        (* mraa_gpio_read(button) *)
}.

Definition set_user_int (v : Z) (s : state) : state :=
  mkState v (gen_reports s) (period s) (scale s) (logfile s) (logfd s)
    (main_at s) (input_at s) (buff s) (button_at s)
    (stdout s) (stderr s) (log s) (sleeps s) (exit_status s)
    (handler_installed s).

Definition set_gen_reports (v : Z) (s : state) : state :=
  mkState (user_int s) v (period s) (scale s) (logfile s) (logfd s)
    (main_at s) (input_at s) (buff s) (button_at s)
    (stdout s) (stderr s) (log s) (sleeps s) (exit_status s)
    (handler_installed s).

Definition set_period (v : Z) (s : state) : state :=
  mkState (user_int s) (gen_reports s) v (scale s) (logfile s) (logfd s)
    (main_at s) (input_at s) (buff s) (button_at s)
    (stdout s) (stderr s) (log s) (sleeps s) (exit_status s)
    (handler_installed s).

Definition set_scale (v : char) (s : state) : state :=
  mkState (user_int s) (gen_reports s) (period s) v (logfile s) (logfd s)
    (main_at s) (input_at s) (buff s) (button_at s)
    (stdout s) (stderr s) (log s) (sleeps s) (exit_status s)
    (handler_installed s).

Definition main_goto (pc : main_pc) (s : state) : state :=
  mkState (user_int s) (gen_reports s) (period s) (scale s) (logfile s) (logfd s)
    pc (input_at s) (buff s) (button_at s)
    (stdout s) (stderr s) (log s) (sleeps s) (exit_status s)
    (handler_installed s).

Definition input_goto (pc : input_pc) (s : state) : state :=
  mkState (user_int s) (gen_reports s) (period s) (scale s) (logfile s) (logfd s)
    (main_at s) pc (buff s) (button_at s)
    (stdout s) (stderr s) (log s) (sleeps s) (exit_status s)
    (handler_installed s).

Definition set_buff (b : list char) (s : state) : state :=
  mkState (user_int s) (gen_reports s) (period s) (scale s) (logfile s) (logfd s)
    (main_at s) (input_at s) b (button_at s)
    (stdout s) (stderr s) (log s) (sleeps s) (exit_status s)
    (handler_installed s).

Definition button_goto (pc : button_pc) (s : state) : state :=
  mkState (user_int s) (gen_reports s) (period s) (scale s) (logfile s) (logfd s)
    (main_at s) (input_at s) (buff s) pc
    (stdout s) (stderr s) (log s) (sleeps s) (exit_status s)
    (handler_installed s).

Definition put_stdout (r : record) (s : state) : state :=
  mkState (user_int s) (gen_reports s) (period s) (scale s) (logfile s) (logfd s)
    (main_at s) (input_at s) (buff s) (button_at s)
    (stdout s ++ [r]) (stderr s) (log s) (sleeps s) (exit_status s)
    (handler_installed s).

Definition put_stderr (d : diag) (s : state) : state :=
  mkState (user_int s) (gen_reports s) (period s) (scale s) (logfile s) (logfd s)
    (main_at s) (input_at s) (buff s) (button_at s)
    (stdout s) (stderr s ++ [d]) (log s) (sleeps s) (exit_status s)
    (handler_installed s).

Definition put_log (l : log_entry) (s : state) : state :=
  mkState (user_int s) (gen_reports s) (period s) (scale s) (logfile s) (logfd s)
    (main_at s) (input_at s) (buff s) (button_at s)
    (stdout s) (stderr s) (log s ++ [l]) (sleeps s) (exit_status s)
    (handler_installed s).

Definition put_sleep (n : Z) (s : state) : state :=
  mkState (user_int s) (gen_reports s) (period s) (scale s) (logfile s) (logfd s)
    (main_at s) (input_at s) (buff s) (button_at s)
    (stdout s) (stderr s) (log s) (sleeps s ++ [n]) (exit_status s)
    (handler_installed s).

(** [exit(c)], and [return c] from [main]: the whole process is gone. *)
Definition exit (c : Z) (s : state) : state :=
  mkState (user_int s) (gen_reports s) (period s) (scale s) (logfile s) (logfd s)
    (main_at s) (input_at s) (buff s) (button_at s)
    (stdout s) (stderr s) (log s) (sleeps s) (Some c) (handler_installed s).

(** [perror(msg); exit(1);] *)
Definition die (msg : string) (s : state) : state :=
  exit 1 (put_stderr (Perror msg) s).

(** [void signal_handler(int sig)] *)
Definition signal_handler (sig : Z) (s : state) : state :=
  if sig =? SIGINT then set_user_int 1 s else s.

(** The handler has been entered: SIGINT is back to its default action. *)
Definition uninstall (s : state) : state :=
  mkState (user_int s) (gen_reports s) (period s) (scale s) (logfile s) (logfd s)
    (main_at s) (input_at s) (buff s) (button_at s)
    (stdout s) (stderr s) (log s) (sleeps s) (exit_status s) false.

(** The status of a process a signal has terminated, as a shell reports
    it: 128 + the number of the signal. *)
Definition killed_by (sig : Z) : Z := 128 + sig.

(** The default action of SIGINT: the process is terminated at once, with
    nothing flushed or printed. *)
Definition kill (sig : Z) (s : state) : state := exit (killed_by sig) s.

(** Delivery of a signal to the process.  [main] installs the handler with
    [signal(SIGINT, signal_handler)] under [#define _XOPEN_SOURCE 700],
    for which glibc gives the one-shot [signal] of System V: the
    disposition is reset to the default when the handler is entered.  So
    the first SIGINT runs [signal_handler], and any later one has the
    default action. *)
Definition deliver (sig : Z) (s : state) : state :=
  if (sig =? SIGINT) && handler_installed s
  then signal_handler sig (uninstall s)
  else kill sig s.

(** [raise(SIGINT)]: the signal is delivered to the calling thread before
    [raise] returns. *)
Definition raise (sig : Z) (s : state) : state := deliver sig s.

(** *** The sampling loop and the epilogue of [main] *)

Definition main_step (e : env) (s : state) : state :=
  match main_at s with
  | M_while =>
      if user_int s =? 0 then main_goto M_if_reports s
      else main_goto M_shutdown s
  | M_if_reports =>
      (* Only sample if gen_reports is true; allows pause and restart *)
      if gen_reports s =? 0 then main_goto M_while s
      else main_goto M_sample s
  | M_sample =>
      let temperature := get_temperature (adc e) (scale s) in
      let buff := Sample (now e) temperature in
      main_goto (M_log buff) (put_stdout buff s)
  | M_log buff =>
      if logfile s then
        if write_rc e <? 0 then die "Couldn't write to log file" s
        else main_goto M_sleep (put_log (LogRecord buff) s)
      else main_goto M_sleep s
  | M_sleep =>
      main_goto M_while (put_sleep (to_unsigned (period s)) s)
  | M_shutdown =>
      let buff := Shutdown (now e) in
      main_goto (M_shutdown_log buff) (put_stdout buff s)
  | M_shutdown_log buff =>
      if logfile s then
        if write_rc e <? 0 then die "Couldn't write to log file" s
        else main_goto M_close (put_log (LogRecord buff) s)
      else main_goto M_close s
  | M_close =>
      if logfile s then
        if close_rc e <? 0 then die "Couldn't close log file" s
        else main_goto M_join_button s
      else main_goto M_join_button s
  | M_join_button =>
      match button_at s with
      | B_exited => main_goto M_join_input s
      | _ => s
      end
  | M_join_input =>
      match input_at s with
      | G_exited => main_goto M_return s
      | _ => s
      end
  | M_return => exit 0 s
  end.

(** *** [get_commands] *)

(** [read(0, buff, 128)] delivering the bytes [d]: at most 128 of them
    overwrite the head of [buff]; the bytes behind them stay. *)
Definition read_chunk (d : list char) : list char := firstn 128 d.

Definition store (d : list char) (b : list char) : list char :=
  read_chunk d ++ skipn (length (read_chunk d)) b.

(** The chain of [strncmp] tests on [buff]. *)
Definition dispatch (s : state) : state :=
  if strncmp (lit "OFF") (buff s) 3 =? 0 then
    input_goto G_exited (raise SIGINT s)
  else if strncmp (lit "STOP") (buff s) 4 =? 0 then
    input_goto G_while (set_gen_reports 0 s)
  else if strncmp (lit "START") (buff s) 5 =? 0 then
    input_goto G_while (set_gen_reports 1 s)
  else if strncmp (lit "SCALE=F") (buff s) 7 =? 0 then
    input_goto G_while (set_scale "F"%char s)
  else if strncmp (lit "SCALE=C") (buff s) 7 =? 0 then
    input_goto G_while (set_scale "C"%char s)
  else if strncmp (lit "PERIOD=") (buff s) 7 =? 0 then
    input_goto G_while (set_period (atoi (skipn 7 (buff s))) s)
  else
    input_goto G_while (put_stderr (Fprintf "Bad command
") s).

Definition get_commands_step (e : env) (s : state) : state :=
  match input_at s with
  | G_while =>
      if user_int s =? 0 then input_goto G_select s
      else input_goto G_exited s
  | G_select =>
      if select_rc e >? 0 then input_goto G_read s
      else if select_rc e =? -1 then die "Select failed" s
      else input_goto G_while s
  | G_read =>
      match read_in e with
      | None => die "Failed to read from stdin" s
      | Some d =>
          input_goto (G_log (length (read_chunk d))) (set_buff (store d (buff s)) s)
      end
  | G_log nbytes =>
      if logfd s >? 0 then
        if write_rc e <? 0 then die "Failed to log command" s
        else input_goto G_dispatch (put_log (LogCommand (firstn nbytes (buff s))) s)
      else input_goto G_dispatch s
  | G_dispatch => dispatch s
  | G_exited => s
  end.

(** *** [check_button] *)

Definition check_button_step (e : env) (s : state) : state :=
  match button_at s with
  | B_while =>
      if user_int s =? 0 then button_goto B_read s
      else button_goto B_exited s
  | B_read =>
      if gpio e =? 0 then button_goto B_sleep s
      else button_goto B_exited (raise SIGINT s)
  | B_sleep => button_goto B_while s
  | B_exited => s
  end.

(** *** The process *)

(** One event of a run: a thread takes its next step, or SIGINT arrives
    from outside (the only signal the program installs a handler for).
    Steps are atomic and interleave in any order; each reads or writes at
    most one global. *)
Inductive event : Type :=
| Ev_main (e : env)
| Ev_input (e : env)
| Ev_button (e : env)
| Ev_sigint.

Definition step (s : state) (ev : event) : state :=
  match exit_status s with
  | Some _ => s
  | None =>
      match ev with
      | Ev_main e => main_step e s
      | Ev_input e => get_commands_step e s
      | Ev_button e => check_button_step e s
      | Ev_sigint => deliver SIGINT s
      end
  end.

Definition run (evs : list event) (s : state) : state := fold_left step evs s.

(** What the prologue of [main] is given: the values the options left in
    [period] and [scale], whether a log file was named, what [open] and the
    two mraa initialisations returned, and the bytes that happen to be in
    the uninitialised [buff] of [get_commands]. *)
Record config : Type := mkConfig {
  opt_period : Z;
  opt_scale : char;
  opt_logfile : bool;
  open_rc : Z;
  aio_ok : bool;
  gpio_ok : bool;
  stack : list char
}.

(** The state in which the two threads have been created and [main] is
    about to test [while(!user_int)], or the process has exited at once. *)
Definition startup (c : config) : state :=
  let logfd := if opt_logfile c then open_rc c else -1 in
  let s := mkState 0 1 (opt_period c) (opt_scale c) (opt_logfile c) logfd
             M_while G_while (stack c) B_while [] [] [] [] None true in
  if opt_logfile c && (open_rc c <? 0) then die "Couldn't open log file" s
  else if negb (aio_ok c) then
    exit 1 (put_stderr (Fprintf "Failed to open analog input port
") s)
  else if negb (gpio_ok c) then
    exit 1 (put_stderr (Fprintf "Failed to open digital input port
") s)
  else s.

(** The defaults of the globals: [period = 1], [scale = 'F'], no log. *)
Definition default_config : config :=
  mkConfig 1 "F"%char false (-1) true true [].

(** *** Observations *)

Definition is_shutdown (r : record) : bool :=
  match r with Shutdown _ => true | Sample _ _ => false end.

(** Number of Shutdown Records among the records printed. *)
Definition shutdown_count (l : list record) : nat :=
  length (filter is_shutdown l).

(** [main] has left the sampling loop and printed the SHUTDOWN line. *)
Definition shutdown_printed (pc : main_pc) : bool :=
  match pc with
  | M_while | M_if_reports | M_sample | M_log _ | M_sleep | M_shutdown => false
  | _ => true
  end.

(** [main] is inside the sampling loop. *)
Definition sampling (pc : main_pc) : bool :=
  match pc with
  | M_while | M_if_reports | M_sample | M_log _ | M_sleep => true
  | _ => false
  end.

(** The last record printed, if any, is the Shutdown Record. *)
Definition ends_with_shutdown (l : list record) : bool :=
  match rev l with
  | r :: _ => is_shutdown r
  | [] => false
  end.

(** [main] runs alone from [s] until it is back at the loop test, has left
    the loop or the process has exited: one pass through the loop body. *)
Fixpoint main_run (fuel : nat) (e : env) (s : state) : state :=
  match fuel with
  | O => s
  | S fuel' =>
      let s' := main_step e s in
      match exit_status s', main_at s' with
      | None, M_if_reports | None, M_sample | None, M_log _ | None, M_sleep =>
          main_run fuel' e s'
      | _, _ => s'
      end
  end.

Definition sampler_tick (e : env) (s : state) : state := main_run 5 e s.

(** [get_commands] runs alone from the call of [read] to the end of the
    loop body: the read, the copy to the log, the tests. *)
Definition reader_chunk (e : env) (s : state) : state :=
  run [Ev_input e; Ev_input e; Ev_input e] s.

(** The four globals of a state. *)
Definition globals_of (s : state) : Z * Z * Z * char :=
  (user_int s, gen_reports s, period s, scale s).

(** The command words tested by [get_commands], in the order of the tests. *)
Definition commands : list string :=
  ["OFF"; "STOP"; "START"; "SCALE=F"; "SCALE=C"; "PERIOD="]%string.

(** The bytes [b] begin with the characters of the word [p], compared
    byte for byte. *)
Definition starts_with (p : string) (b : list char) : Prop :=
  firstn (length (lit p)) b = lit p.

Definition is_main_event (ev : event) : bool :=
  match ev with Ev_main _ => true | _ => false end.

(** The bytes [d] are a proper beginning of the word [p]: fewer than the
    word has, and equal to its first characters. *)
Definition proper_beginning (d : list char) (p : string) : Prop :=
  (length d < length (lit p))%nat /\ firstn (length d) (lit p) = d.

(** Number of events of [main] in a schedule. *)
Definition main_events (evs : list event) : nat :=
  length (filter is_main_event evs).

(** Number of Shutdown Records appended to the log. *)
Definition shutdown_logged (l : list log_entry) : nat :=
  length (filter (fun x => match x with
                           | LogRecord r => is_shutdown r
                           | LogCommand _ => false
                           end) l).

(** [main] is past the write of the SHUTDOWN line to the log. *)
Definition shutdown_log_done (pc : main_pc) : bool :=
  match pc with
  | M_close | M_join_button | M_join_input | M_return => true
  | _ => false
  end.

(** What holds of the records printed and logged in every state the
    process reaches. *)
Definition shutdown_inv (s : state) : Prop :=
  shutdown_count (stdout s) = (if shutdown_printed (main_at s) then 1 else 0)%nat
  /\ (shutdown_printed (main_at s) = true -> ends_with_shutdown (stdout s) = true)
  /\ shutdown_logged (log s) =
     (if logfile s && shutdown_log_done (main_at s) then 1 else 0)%nat
  /\ (forall b, main_at s = M_shutdown_log b -> is_shutdown b = true)
  /\ (forall b, main_at s = M_log b -> is_shutdown b = false)
  /\ (exit_status s = Some 0 -> main_at s = M_return).

End Program.

(** ** The rest of [main] and of [check_button] *)

(** [timer.tv_sec = check_period / 1000] and
    [timer.tv_nsec = (check_period % 1000) * 1000000]: the [timespec]
    [check_button] sleeps for, from a period in milliseconds.  The
    division and the remainder of C truncate towards zero. *)
Definition button_timer (check_period : Z) : Z * Z :=
  (Z.quot check_period 1000, Z.rem check_period 1000 * 1000000).

(** What the option loop of [main] leaves: the globals [period] and
    [scale] and the local [logfile] (None for NULL). *)
Record cmdline : Type := mkCmdline {
  cl_period : Z;
  cl_scale : char;
  cl_logfile : option (list char)
}.

(** The initial values: [period = 1], [scale = 'F'], [logfile = NULL]. *)
Definition cmdline_defaults : cmdline := mkCmdline 1 "F"%char None.

(** The loop ends when [getopt_long] returns -1, or at '?' with the usage
    message and [return 1]. *)
Inductive getopt_outcome : Type :=
| Parsed (o : cmdline)
| Usage (o : cmdline).

(** [while((opt = getopt_long(...)) != -1) switch(opt)], over the
    successive returns of [getopt_long]: the option character and
    [optarg]. *)
Fixpoint main_options (rs : list (char * list char)) (o : cmdline) : getopt_outcome :=
  match rs with
  | [] => Parsed o
  | (opt, optarg) :: rs' =>
      if Ascii.eqb opt "p"%char then
        main_options rs' (mkCmdline (atoi optarg) (cl_scale o) (cl_logfile o))
      else if Ascii.eqb opt "s"%char then
        main_options rs' (mkCmdline (cl_period o) (peek optarg) (cl_logfile o))
      else if Ascii.eqb opt "l"%char then
        main_options rs' (mkCmdline (cl_period o) (cl_scale o) (Some optarg))
      else if Ascii.eqb opt "?"%char then Usage o
      else main_options rs' o
  end.

(** The [optarg] of the last return of [getopt_long] with the option
    character [c], if there is one. *)
Fixpoint last_optarg (c : char) (rs : list (char * list char)) : option (list char) :=
  match rs with
  | [] => None
  | (opt, optarg) :: rs' =>
      match last_optarg c rs' with
      | Some a => Some a
      | None => if Ascii.eqb opt c then Some optarg else None
      end
  end.

Definition usage_text : string :=
  "Usage: 
./lab4b [...options...]
Options:
--period=<sample period, in seconds>
--scale=<temp scale; valid C or F>
--log=<filename>
".

Definition has_logfile (o : cmdline) : bool :=
  match cl_logfile o with Some _ => true | None => false end.

Section Prologue.

Context {FO : FloatOps}.

(** [main] from its first line to the sampling loop: the options, then
    the log file and the two ports as in [startup]. *)
Definition main_prologue (rs : list (char * list char))
    (open_rc : Z) (aio_ok gpio_ok : bool) (stack : list char) : state :=
  match main_options rs cmdline_defaults with
  | Usage o =>
      exit 1 (put_stderr (Fprintf usage_text)
                (mkState 0 1 (cl_period o) (cl_scale o) (has_logfile o) (-1)
                   M_while G_while stack B_while [] [] [] [] None true))
  | Parsed o =>
      startup (mkConfig (cl_period o) (cl_scale o) (has_logfile o)
                 open_rc aio_ok gpio_ok stack)
  end.

(** *** The bytes of a record *)

(** The text [sprintf] makes of a record, [fmt] being the rendering of
    ["%.1f"]. *)
Definition record_text (fmt : float -> list char) (r : record) : list char :=
  match r with
  | Sample timebuff temperature =>
      lit timebuff ++ " "%char :: fmt temperature ++ ["010"%char]
  | Shutdown timebuff => lit timebuff ++ lit " SHUTDOWN
"
  end.

(** [char buff[32]] after [memset(buff, 0, 32)] and [sprintf] of a text
    of at most 31 characters; these 32 bytes are what [write(logfd, buff,
    32)] appends to the log. *)
Definition buff32 (text : list char) : list char :=
  firstn 32 (text ++ repeat NUL 32).

(** The C string at the head of some bytes: what ["%s"] prints. *)
Fixpoint c_string (b : list char) : list char :=
  match b with
  | [] => []
  | c :: b' => if Ascii.eqb c NUL then [] else c :: c_string b'
  end.

(** *** More observations *)

(** The records among the entries of the log, oldest first. *)
Definition logged_records (l : list log_entry) : list record :=
  flat_map (fun x => match x with LogRecord r => [r] | LogCommand _ => [] end) l.

(** The chunks of input among the entries of the log, oldest first. *)
Definition logged_commands (l : list log_entry) : list (list char) :=
  flat_map (fun x => match x with LogRecord _ => [] | LogCommand b => [b] end) l.

(** The record [main] has printed and not yet written to the log. *)
Definition pending (pc : main_pc) : list record :=
  match pc with
  | M_log b | M_shutdown_log b => [b]
  | _ => []
  end.

(** Number of sample records among the records printed. *)
Definition sample_count (l : list record) : nat :=
  length (filter (fun r => negb (is_shutdown r)) l).

(** [main] has printed a sample and not yet slept for it. *)
Definition unslept (pc : main_pc) : nat :=
  match pc with
  | M_log _ | M_sleep => 1
  | _ => 0
  end.

(** The three settings the commands change. *)
Definition settings_of (s : state) : Z * Z * char :=
  (gen_reports s, period s, scale s).

Definition is_input_event (ev : event) : bool :=
  match ev with Ev_input _ => true | _ => false end.

Definition is_button_event (ev : event) : bool :=
  match ev with Ev_button _ => true | _ => false end.

(** In an event of the reader, [select] does not return -1 and [read]
    delivers bytes. *)
Definition reads_succeed (ev : event) : bool :=
  match ev with
  | Ev_input e =>
      negb (select_rc e =? -1)
      && match read_in e with Some _ => true | None => false end
  | _ => true
  end.

(** The event brings no SIGINT: it is not one from outside, and in an
    event of the button thread the button is not down. *)
Definition no_trigger (ev : event) : bool :=
  match ev with
  | Ev_sigint => false
  | Ev_button e => gpio e =? 0
  | _ => true
  end.

(** The process is running or has returned 0. *)
Definition alive_or_done (s : state) : Prop :=
  exit_status s = None \/ exit_status s = Some 0.

Definition input_events (evs : list event) : nat :=
  length (filter is_input_event evs).

Definition button_events (evs : list event) : nat :=
  length (filter is_button_event evs).

(** A diagnostic that goes with status 1: any [perror], one of the two
    messages for a port that could not be opened, or the usage text. *)
Definition fatal_diag (d : diag) : bool :=
  match d with
  | Perror _ => true
  | Fprintf t =>
      String.eqb t "Failed to open analog input port
"
      || String.eqb t "Failed to open digital input port
"
      || String.eqb t usage_text
  end.

Definition last_diag_fatal (l : list diag) : bool :=
  match rev l with
  | d :: _ => fatal_diag d
  | [] => false
  end.

(** Steps the threads still have to take, once [user_int] is set and if no
    call fails, before they have ended, and [main] before it has
    returned with both threads joined. *)
Definition input_steps_left (pc : input_pc) : nat :=
  match pc with
  | G_select => 5
  | G_read => 4
  | G_log _ => 3
  | G_dispatch => 2
  | G_while => 1
  | G_exited => 0
  end.

Definition button_steps_left (pc : button_pc) : nat :=
  match pc with
  | B_read => 3
  | B_sleep => 2
  | B_while => 1
  | B_exited => 0
  end.

Definition main_steps_left (s : state) : nat :=
  match exit_status s with
  | Some _ => 0
  | None =>
      match main_at s with
      | M_if_reports => 11
      | M_sample => 10
      | M_log _ => 9
      | M_sleep => 8
      | M_while => 7
      | M_shutdown => 6
      | M_shutdown_log _ => 5
      | M_close => 4
      | M_join_button => 3
      | M_join_input => 2
      | M_return => 1
      end
  end.

(** How the program points of the three threads and the flag go together
    in every state the process reaches. *)
Definition sync_inv (s : state) : Prop :=
  (sampling (main_at s) = false -> user_int s <> 0)
  /\ (input_at s = G_exited -> user_int s <> 0)
  /\ (button_at s = B_exited -> user_int s <> 0)
  /\ (main_at s = M_join_input \/ main_at s = M_return -> button_at s = B_exited)
  /\ (main_at s = M_return -> input_at s = G_exited)
  /\ (forall c, exit_status s = Some c ->
                (c = 0 /\ main_at s = M_return)
                \/ (c = 1 /\ last_diag_fatal (stderr s) = true)
                \/ (c = killed_by SIGINT /\ handler_installed s = false))
  /\ (handler_installed s = false -> user_int s <> 0).

(** How the log goes with what was printed. *)
Definition log_inv (s : state) : Prop :=
  (logfile s = true -> logged_records (log s) ++ pending (main_at s) = stdout s)
  /\ (logfile s = false -> logged_records (log s) = [])
  /\ (logfd s <= 0 -> logged_commands (log s) = [])
  /\ (logfile s = false -> logfd s = -1).


(** [main] is not in the middle of a sample. *)
Definition between_samples (pc : main_pc) : bool :=
  match pc with
  | M_sample | M_log _ | M_sleep => false
  | _ => true
  end.

End Prologue.

(** ** Sample inputs

    Concrete answers of the system and concrete schedules, on which the
    definitions above are evaluated with the arithmetic of [SymFloat]. *)

(** The system answers: it is 12:00:00, the sensor reads 512, [write]
    returns [wr], [close] 0, [select] 1, [read] delivers the bytes of
    [line] and the button reads [gp]. *)
Definition answers (wr : Z) (line : string) (gp : Z) : env :=
  mkEnv "12:00:00" 512 wr 0 1 (Some (lit line)) gp.

Definition env_bogus : env := answers 32 "BOGUS
" 0.

Definition env_stop : env := answers 32 "STOP
" 0.

Definition env_period : env := answers 32 "PERIOD=-5
" 0.

Definition env_off_pressed : env := answers 32 "OFF
" 1.

Definition env_write_fails : env := answers (-1) "STOP
" 0.

(** The process just started with the defaults. *)
Definition fresh : @state SymFloat := startup default_config.

(** The process started with a log file, opened as descriptor 3. *)
Definition fresh_logged : @state SymFloat :=
  startup (mkConfig 1 "F"%char true 3 true true []).

(** The reader has gone through its loop test and [select]: it is about to
    call [read]. *)
Definition at_read (s : @state SymFloat) : @state SymFloat :=
  run [Ev_input env_bogus; Ev_input env_bogus] s.

(** The reader has read and applied the line STOP. *)
Definition paused : @state SymFloat :=
  run [Ev_input env_stop; Ev_input env_stop; Ev_input env_stop] (at_read fresh).

(** A schedule in which a sample is taken, then the button is pressed and
    the line OFF is read while [main] sleeps, and [main] is given the
    steps to run to its end. *)
Definition two_triggers : list event :=
  [Ev_input env_off_pressed; Ev_button env_off_pressed;
   Ev_main env_off_pressed; Ev_main env_off_pressed; Ev_main env_off_pressed;
   Ev_input env_off_pressed; Ev_button env_off_pressed;
   Ev_input env_off_pressed; Ev_input env_off_pressed; Ev_input env_off_pressed;
   Ev_main env_off_pressed; Ev_main env_off_pressed; Ev_main env_off_pressed;
   Ev_main env_off_pressed; Ev_main env_off_pressed; Ev_main env_off_pressed;
   Ev_main env_off_pressed; Ev_main env_off_pressed; Ev_main env_off_pressed].

(** The reader has read the line xFF and printed "Bad command". *)
Definition after_xff : @state SymFloat :=
  reader_chunk (answers 32 "xFF
" 0) (at_read fresh).

(** The reader has read and applied the line PERIOD=1234. *)
Definition after_period_1234 : @state SymFloat :=
  reader_chunk (answers 32 "PERIOD=1234
" 0) (at_read fresh).

(** [read] delivers the one byte O, or the eight bytes PERIOD=5, with no
    newline. *)
Definition env_O : env := answers 32 "O" 0.

Definition env_period_5 : env := answers 32 "PERIOD=5" 0.

(** A schedule with one trigger: a sample is taken, the line OFF is read
    while [main] sleeps, the button thread sees the flag, and [main] runs
    to its end. *)
Definition env_off : env := answers 32 "OFF
" 0.

Definition one_trigger : list event :=
  [Ev_input env_off; Ev_button env_off;
   Ev_main env_off; Ev_main env_off; Ev_main env_off;
   Ev_input env_off; Ev_button env_off;
   Ev_input env_off; Ev_input env_off; Ev_input env_off;
   Ev_button env_off; Ev_button env_off;
   Ev_main env_off; Ev_main env_off; Ev_main env_off;
   Ev_main env_off; Ev_main env_off; Ev_main env_off;
   Ev_main env_off; Ev_main env_off; Ev_main env_off].

(** The flag has been set by a SIGINT from outside. *)
Definition flagged : @state SymFloat := run [Ev_sigint] fresh.

(** Five steps of the reader and three of the button thread, then eleven
    steps of [main], no call failing. *)
Definition threads_wind_down : list event :=
  repeat (Ev_input env_stop) 5 ++ repeat (Ev_button env_stop) 3.

Definition main_winds_down : list event := repeat (Ev_main env_stop) 11.

(** The reader has read and applied the line OFF. *)
Definition after_off : @state SymFloat :=
  reader_chunk env_off_pressed (at_read fresh).

(** The first write of a sample to the log has failed. *)
Definition write_failed : @state SymFloat :=
  run (repeat (Ev_main env_write_fails) 4) fresh_logged.

Definition env_scale_c : env := answers 32 "SCALE=C
" 0.

(** [read] returns 0: the end of the input. *)
Definition env_eof : env := answers 32 "" 0.


(** The reader is about to test the line PERIOD=abc. *)
Definition period_abc : @state SymFloat :=
  run [Ev_input (answers 32 "PERIOD=abc
" 0); Ev_input (answers 32 "PERIOD=abc
" 0)] (at_read fresh).

(** Returns of [getopt_long] for
    [--period=5 --scale=C --period=-3 --log=out.txt]. *)
Definition some_options : list (char * list char) :=
  [("p"%char, lit "5"); ("s"%char, lit "C"); ("p"%char, lit "-3");
   ("l"%char, lit "out.txt")].

(** The rendering of ["%.1f"] stood in for by a fixed text. *)
Definition fmt_sample (t : @float SymFloat) : list char := lit "72.5".

(** * Properties *)

(** ** The C library functions *)

Lemma uchar_inj (a b : char) : uchar a = uchar b -> a = b.
Proof.
  unfold uchar. intros H. apply N2Z.inj in H.
  rewrite <- (ascii_N_embedding a), <- (ascii_N_embedding b).
  now rewrite H.
Qed.

Lemma uchar_NUL (a : char) : uchar a = 0 -> a = NUL.
Proof. intros H. apply uchar_inj. exact H. Qed.

(** [strncmp] of a NUL-free word over its whole length is 0 exactly when
    the other string begins with the word. *)
Lemma strncmp_zero_iff (p b : list char) :
  ~ In NUL p ->
  strncmp p b (length p) = 0 <-> firstn (length p) b = p.
Proof.
  revert b. induction p as [|c p IH]; intros b Hnul.
  - simpl. split; reflexivity.
  - assert (Hc : c <> NUL) by (intros ->; apply Hnul; now left).
    assert (Hp : ~ In NUL p) by (intros H; apply Hnul; now right).
    simpl length. cbn [strncmp]. unfold peek.
    destruct b as [|x b]; cbn [hd tl firstn].
    + destruct (Ascii.eqb_spec c NUL) as [E|_]; [contradiction|].
      split; [|discriminate].
      intros H. exfalso. apply Hc, uchar_NUL.
      change (uchar NUL) with 0 in H. lia.
    + destruct (Ascii.eqb_spec c x) as [->|Hne].
      * destruct (Ascii.eqb_spec x NUL) as [E|_]; [contradiction|].
        rewrite (IH b Hp). split; [intros ->; reflexivity|].
        intros H. injection H as H. exact H.
      * split.
        -- intros H. exfalso. apply Hne, uchar_inj. lia.
        -- intros H. injection H as H _. congruence.
Qed.

Lemma strncmp_spec (p : string) (b : list char) :
  ~ In NUL (lit p) ->
  reflect (firstn (length (lit p)) b = lit p)
          (strncmp (lit p) b (length (lit p)) =? 0).
Proof.
  intros Hp. apply iff_reflect. rewrite Z.eqb_eq.
  symmetry. apply strncmp_zero_iff, Hp.
Qed.

(** Two words that both begin the same bytes agree on their common length. *)
Lemma prefixes_agree (p q b : list char) :
  firstn (length p) b = p -> firstn (length q) b = q ->
  firstn (Nat.min (length p) (length q)) p = firstn (Nat.min (length p) (length q)) q.
Proof.
  remember (length p) as n eqn:En. remember (length q) as k eqn:Ek.
  intros Hp Hq. subst p q.
  rewrite !firstn_firstn. f_equal; lia.
Qed.

(** The bytes read overwrite the head of the buffer: a word of at most 128
    characters that begins the chunk begins the buffer after the read. *)
Lemma store_keeps_prefix (p d stale : list char) :
  (length p <= 128)%nat ->
  firstn (length p) d = p -> firstn (length p) (store d stale) = p.
Proof.
  intros Hlen Hp. unfold store, read_chunk.
  assert (Hd : (length p <= length d)%nat).
  { rewrite <- Hp at 1. rewrite length_firstn. lia. }
  rewrite firstn_app, firstn_firstn, length_firstn.
  replace (Nat.min (length p) 128) with (length p) by lia.
  replace (length p - Nat.min 128 (length d))%nat with 0%nat by lia.
  rewrite Hp. cbn [firstn]. apply app_nil_r.
Qed.

Lemma store_length (d stale : list char) :
  length stale = 128%nat -> length (store d stale) = 128%nat.
Proof.
  intros H. unfold store, read_chunk.
  rewrite length_app, length_skipn, !length_firstn. lia.
Qed.

(** *** [atoi] reads back the decimal numeral of every [int] *)

Lemma digit_char_facts (k : Z) :
  0 <= k < 10 ->
  isdigit (digit_char k) = true /\ uchar (digit_char k) - 48 = k /\
  isspace (digit_char k) = false /\
  Ascii.eqb (digit_char k) "-"%char = false /\
  Ascii.eqb (digit_char k) "+"%char = false.
Proof.
  intros H.
  assert (E : k = 0 \/ k = 1 \/ k = 2 \/ k = 3 \/ k = 4 \/ k = 5 \/
              k = 6 \/ k = 7 \/ k = 8 \/ k = 9) by lia.
  repeat (destruct E as [->|E]; [repeat split; reflexivity|]).
  subst k. repeat split; reflexivity.
Qed.

Lemma digits_stop (a : Z) (r : list char) :
  isdigit (peek r) = false -> digits a r = a.
Proof.
  destruct r as [|c r]; [reflexivity|].
  cbn [peek hd digits]. intros ->. reflexivity.
Qed.

Lemma digits_decimal_pos (fuel : nat) :
  forall (n : Z) (acc r : list char),
    0 <= n < 10 ^ Z.of_nat fuel ->
    digits 0 (decimal_pos fuel n acc ++ r) = digits n (acc ++ r).
Proof.
  induction fuel as [|fuel IH]; intros n acc r Hn.
  - cbn in Hn. assert (n = 0) by lia. subst n. reflexivity.
  - rewrite Nat2Z.inj_succ, Z.pow_succ_r in Hn by lia.
    cbn [decimal_pos].
    assert (Hm : 0 <= n mod 10 < 10) by (apply Z.mod_pos_bound; lia).
    destruct (digit_char_facts _ Hm) as (Hd & Hv & _).
    destruct (Z.ltb_spec n 10) as [Hlt|Hge].
    + cbn [app digits]. rewrite Hd, Hv. f_equal.
      rewrite Z.mod_small by lia. lia.
    + rewrite IH.
      * cbn [app digits]. rewrite Hd, Hv. f_equal.
        pose proof (Z.div_mod n 10). lia.
      * split; [apply Z.div_pos; lia|].
        apply Z.div_lt_upper_bound; lia.
Qed.

Lemma decimal_pos_head (fuel : nat) :
  forall (n : Z) (acc : list char),
    exists k l, 0 <= k < 10 /\ decimal_pos (S fuel) n acc = digit_char k :: l.
Proof.
  induction fuel as [|fuel IH]; intros n acc;
    assert (Hm : 0 <= n mod 10 < 10) by (apply Z.mod_pos_bound; lia).
  - exists (n mod 10), acc. split; [exact Hm|].
    cbn [decimal_pos]. destruct (n <? 10); reflexivity.
  - remember (S fuel) as f eqn:Ef. cbn [decimal_pos].
    destruct (n <? 10).
    + exists (n mod 10), acc. split; [exact Hm|reflexivity].
    + subst f. apply IH.
Qed.

Lemma atoi_decimal (z : Z) (r : list char) :
  INT_MIN <= z <= INT_MAX ->
  isdigit (peek r) = false ->
  atoi (decimal z ++ r) = z.
Proof.
  unfold INT_MIN, INT_MAX. intros Hz Hr. unfold atoi, decimal.
  destruct (Z.ltb_spec z 0) as [Hneg|Hpos].
  - cbn [app skip_space]. change (isspace "-"%char) with false. cbv iota.
    change (Ascii.eqb "-"%char "-"%char) with true. cbv iota.
    rewrite digits_decimal_pos by (change (10 ^ Z.of_nat 10) with 10000000000; lia).
    cbn [app]. rewrite digits_stop by exact Hr.
    unfold clamp, INT_MIN, INT_MAX. lia.
  - destruct (decimal_pos_head 9 z []) as (k & l & Hk & E).
    destruct (digit_char_facts k Hk) as (_ & _ & Hs & Hm & Hp).
    rewrite E. cbn [app skip_space]. rewrite Hs, Hm, Hp.
    change (digit_char k :: l ++ r) with ((digit_char k :: l) ++ r).
    rewrite <- E.
    rewrite digits_decimal_pos by (change (10 ^ Z.of_nat 10) with 10000000000; lia).
    cbn [app]. rewrite digits_stop by exact Hr.
    unfold clamp, INT_MIN, INT_MAX. lia.
Qed.

(** ** [get_temperature] *)

Section TemperatureFacts.

Context {FO : FloatOps}.

(** C9.  For every raw reading and every unit character other than 'F',
    [get_temperature] returns the Celsius value: the very result it
    returns for 'C', which is the [temp] of the thermistor formula with no
    further conversion.  The function is total: an unknown unit is no
    failure. *)
Theorem get_temperature_defaults_to_celsius :
  forall (adc_val : Z) (units : char),
    units <> "F"%char ->
    get_temperature adc_val units = get_temperature adc_val "C"%char
    /\ get_temperature adc_val units =
       float_of_double
         (dsub (ddiv (dlit 1)
                  (dadd (ddiv (dlog (double_of_float
                                       (float_of_double
                                          (dsub (ddiv (dlit 1023)
                                                   (double_of_float (float_of_int adc_val)))
                                                (dlit 1)))))
                              (double_of_int 4275))
                        (ddiv (dlit 1) (dlit (29815 # 100)))))
               (dlit (27315 # 100))).
Proof.
  intros adc_val units Hu. unfold get_temperature.
  destruct (Ascii.eqb_spec units "F"%char) as [E|_]; [contradiction|].
  split; reflexivity.
Qed.

(** C6.  For every raw reading, the Fahrenheit result is the Celsius
    result times 9, divided by 5, plus 32, computed in [double] and stored
    in a [float]: the two agree up to that one rounding. *)
Theorem get_temperature_fahrenheit_of_celsius :
  forall (adc_val : Z),
    get_temperature adc_val "F"%char =
    float_of_double
      (dadd (ddiv (dmul (double_of_float (get_temperature adc_val "C"%char))
                        (dlit 9))
                  (dlit 5))
            (dlit 32)).
Proof. intros adc_val. reflexivity. Qed.

End TemperatureFacts.

Lemma get_temperature_defaults_to_celsius_witness :
  "K"%char <> "F"%char /\
  @get_temperature SymFloat 512 "K"%char = @get_temperature SymFloat 512 "C"%char.
Proof.
  split; [discriminate|].
  apply (@get_temperature_defaults_to_celsius SymFloat 512 "K"%char).
  discriminate.
Defined.

(** ** The command reader *)

Ltac nul_free := cbn; intuition discriminate.

(** Two different command words cannot both begin the same bytes. *)
Ltac clash A B :=
  exfalso; unfold starts_with in A, B;
  let X := fresh "X" in
  pose proof (prefixes_agree _ _ _ A B) as X; cbn in X; discriminate X.

Lemma test_OFF (b : list char) :
  reflect (starts_with "OFF" b) (strncmp (lit "OFF") b 3 =? 0).
Proof. apply (strncmp_spec "OFF" b). nul_free. Qed.

Lemma test_STOP (b : list char) :
  reflect (starts_with "STOP" b) (strncmp (lit "STOP") b 4 =? 0).
Proof. apply (strncmp_spec "STOP" b). nul_free. Qed.

Lemma test_START (b : list char) :
  reflect (starts_with "START" b) (strncmp (lit "START") b 5 =? 0).
Proof. apply (strncmp_spec "START" b). nul_free. Qed.

Lemma test_SCALE_F (b : list char) :
  reflect (starts_with "SCALE=F" b) (strncmp (lit "SCALE=F") b 7 =? 0).
Proof. apply (strncmp_spec "SCALE=F" b). nul_free. Qed.

Lemma test_SCALE_C (b : list char) :
  reflect (starts_with "SCALE=C" b) (strncmp (lit "SCALE=C") b 7 =? 0).
Proof. apply (strncmp_spec "SCALE=C" b). nul_free. Qed.

Lemma test_PERIOD (b : list char) :
  reflect (starts_with "PERIOD=" b) (strncmp (lit "PERIOD=") b 7 =? 0).
Proof. apply (strncmp_spec "PERIOD=" b). nul_free. Qed.

(** A command word that begins the chunk read begins the buffer tested. *)
Lemma chunk_prefix (p : string) (d stale : list char) :
  In p commands -> starts_with p d -> starts_with p (store d stale).
Proof.
  intros Hin H. unfold starts_with in *.
  apply store_keeps_prefix; [|exact H].
  cbn in Hin.
  repeat (destruct Hin as [<-|Hin]; [cbn; lia|]). contradiction.
Qed.

Section ReaderFacts.

Context {FO : FloatOps}.

Lemma dispatch_OFF (s : state) :
  starts_with "OFF" (buff s) ->
  dispatch s = input_goto G_exited (raise SIGINT s).
Proof.
  intros H. unfold dispatch.
  destruct (test_OFF (buff s)) as [_|A]; [reflexivity|contradiction].
Qed.

Lemma dispatch_STOP (s : state) :
  starts_with "STOP" (buff s) ->
  dispatch s = input_goto G_while (set_gen_reports 0 s).
Proof.
  intros H. unfold dispatch.
  destruct (test_OFF (buff s)) as [A|_]; [clash A H|].
  destruct (test_STOP (buff s)) as [_|A]; [reflexivity|contradiction].
Qed.

Lemma dispatch_START (s : state) :
  starts_with "START" (buff s) ->
  dispatch s = input_goto G_while (set_gen_reports 1 s).
Proof.
  intros H. unfold dispatch.
  destruct (test_OFF (buff s)) as [A|_]; [clash A H|].
  destruct (test_STOP (buff s)) as [A|_]; [clash A H|].
  destruct (test_START (buff s)) as [_|A]; [reflexivity|contradiction].
Qed.

Lemma dispatch_SCALE_F (s : state) :
  starts_with "SCALE=F" (buff s) ->
  dispatch s = input_goto G_while (set_scale "F"%char s).
Proof.
  intros H. unfold dispatch.
  destruct (test_OFF (buff s)) as [A|_]; [clash A H|].
  destruct (test_STOP (buff s)) as [A|_]; [clash A H|].
  destruct (test_START (buff s)) as [A|_]; [clash A H|].
  destruct (test_SCALE_F (buff s)) as [_|A]; [reflexivity|contradiction].
Qed.

Lemma dispatch_SCALE_C (s : state) :
  starts_with "SCALE=C" (buff s) ->
  dispatch s = input_goto G_while (set_scale "C"%char s).
Proof.
  intros H. unfold dispatch.
  destruct (test_OFF (buff s)) as [A|_]; [clash A H|].
  destruct (test_STOP (buff s)) as [A|_]; [clash A H|].
  destruct (test_START (buff s)) as [A|_]; [clash A H|].
  destruct (test_SCALE_F (buff s)) as [A|_]; [clash A H|].
  destruct (test_SCALE_C (buff s)) as [_|A]; [reflexivity|contradiction].
Qed.

Lemma dispatch_PERIOD (s : state) :
  starts_with "PERIOD=" (buff s) ->
  dispatch s = input_goto G_while (set_period (atoi (skipn 7 (buff s))) s).
Proof.
  intros H. unfold dispatch.
  destruct (test_OFF (buff s)) as [A|_]; [clash A H|].
  destruct (test_STOP (buff s)) as [A|_]; [clash A H|].
  destruct (test_START (buff s)) as [A|_]; [clash A H|].
  destruct (test_SCALE_F (buff s)) as [A|_]; [clash A H|].
  destruct (test_SCALE_C (buff s)) as [A|_]; [clash A H|].
  destruct (test_PERIOD (buff s)) as [_|A]; [reflexivity|contradiction].
Qed.

Lemma dispatch_other (s : state) :
  (forall p, In p commands -> ~ starts_with p (buff s)) ->
  dispatch s = input_goto G_while (put_stderr (Fprintf "Bad command
") s).
Proof.
  intros H. unfold dispatch.
  destruct (test_OFF (buff s)) as [A|_];
    [exfalso; apply (H "OFF"%string); [cbn; tauto|exact A]|].
  destruct (test_STOP (buff s)) as [A|_];
    [exfalso; apply (H "STOP"%string); [cbn; tauto|exact A]|].
  destruct (test_START (buff s)) as [A|_];
    [exfalso; apply (H "START"%string); [cbn; tauto|exact A]|].
  destruct (test_SCALE_F (buff s)) as [A|_];
    [exfalso; apply (H "SCALE=F"%string); [cbn; tauto|exact A]|].
  destruct (test_SCALE_C (buff s)) as [A|_];
    [exfalso; apply (H "SCALE=C"%string); [cbn; tauto|exact A]|].
  destruct (test_PERIOD (buff s)) as [A|_];
    [exfalso; apply (H "PERIOD="%string); [cbn; tauto|exact A]|].
  reflexivity.
Qed.

End ReaderFacts.

Lemma decimal_pos_length (fuel : nat) :
  forall (n : Z) (acc : list char),
    (length (decimal_pos fuel n acc) <= fuel + length acc)%nat.
Proof.
  induction fuel as [|fuel IH]; intros n acc; cbn [decimal_pos].
  - lia.
  - destruct (n <? 10).
    + cbn [length]. lia.
    + specialize (IH (n / 10) (digit_char (n mod 10) :: acc)).
      cbn [length] in IH. lia.
Qed.

Lemma decimal_length (z : Z) : (length (decimal z) <= 11)%nat.
Proof.
  unfold decimal. destruct (z <? 0).
  - pose proof (decimal_pos_length 10 (- z) []). cbn [length] in *. lia.
  - pose proof (decimal_pos_length 10 z []). cbn [length] in *. lia.
Qed.

(** A chunk that begins with at most 128 given bytes leaves them at the
    head of the buffer. *)
Lemma store_app_short (a j stale : list char) :
  (length a <= 128)%nat -> exists r, store (a ++ j) stale = a ++ r.
Proof.
  intros Ha. unfold store, read_chunk.
  rewrite firstn_app, (firstn_all2 (n := 128) a) by lia.
  rewrite <- app_assoc. eexists. reflexivity.
Qed.

(** After the read of ["PERIOD=<z>\n"], whatever follows in the chunk and
    whatever was in the buffer, [&buff[7]] holds the numeral and a newline. *)
Lemma store_period_line (z : Z) (junk stale : list char) :
  exists r,
    skipn 7 (store (lit "PERIOD=" ++ decimal z ++ lit "
" ++ junk) stale) = decimal z ++ "010"%char :: r.
Proof.
  pose proof (decimal_length z) as Hlen.
  destruct (store_app_short (lit "PERIOD=" ++ decimal z ++ lit "
") junk stale) as (r & E).
  { rewrite !length_app. cbn [lit list_ascii_of_string length]. lia. }
  rewrite <- !app_assoc in E. rewrite E.
  exists r. reflexivity.
Qed.

(** A command word begins the buffer after the read of a whole line only
    if it begins the line itself: the newline stops every longer match. *)
Lemma line_decides (p : string) (l stale : list char) :
  In p commands -> (length l < 128)%nat ->
  starts_with p (store (l ++ ["010"%char]) stale) ->
  starts_with p (l ++ ["010"%char]).
Proof.
  intros Hin Hl. unfold starts_with, store, read_chunk.
  set (d := l ++ ["010"%char]).
  assert (Hd : length d = S (length l)) by (unfold d; rewrite length_app; cbn; lia).
  rewrite (firstn_all2 (n := 128) d) by lia.
  rewrite firstn_app. intros H.
  destruct (Nat.le_gt_cases (length (lit p)) (length d)) as [Hle|Hgt].
  - replace (length (lit p) - length d)%nat with 0%nat in H by lia.
    cbn [firstn] in H. now rewrite app_nil_r in H.
  - exfalso. rewrite (firstn_all2 (n := length (lit p)) d) in H by lia.
    assert (Hnl : In "010"%char (lit p)).
    { rewrite <- H. unfold d. rewrite !in_app_iff. left. right. now left. }
    cbn in Hin.
    repeat (destruct Hin as [<-|Hin]; [cbn in Hnl; intuition discriminate|]).
    contradiction.
Qed.

(** For a whole line of fewer than 128 bytes, to begin with none of the
    command words is the same for the line and for the buffer it is read
    into. *)
Lemma whole_line_unmatched (l stale : list char) :
  (length l < 128)%nat ->
  (forall p, In p commands -> ~ starts_with p (l ++ ["010"%char])) ->
  forall p, In p commands -> ~ starts_with p (store (l ++ ["010"%char]) stale).
Proof.
  intros Hl H p Hin Hp. apply (H p Hin).
  now apply (line_decides p l stale).
Qed.

(** A command word begins the buffer after a read only if it begins the
    chunk, or the chunk is a proper beginning of the word and the bytes
    left in the buffer complete it. *)
Lemma store_decides (p : string) (d stale : list char) :
  In p commands ->
  starts_with p (store d stale) ->
  starts_with p d \/ proper_beginning d p.
Proof.
  intros Hin. unfold starts_with, proper_beginning, store, read_chunk.
  assert (Hp : (length (lit p) <= 7)%nat).
  { cbn in Hin. repeat (destruct Hin as [<-|Hin]; [cbn; lia|]). contradiction. }
  clear Hin. set (k := length (lit p)) in *.
  rewrite firstn_app, firstn_firstn, length_firstn.
  replace (Nat.min k 128) with k by lia.
  intros H.
  destruct (Nat.le_gt_cases k (length d)) as [Hle|Hgt].
  - left. replace (k - Nat.min 128 (length d))%nat with 0%nat in H by lia.
    cbn [firstn] in H. now rewrite app_nil_r in H.
  - right. split; [exact Hgt|].
    rewrite (firstn_all2 (n := k) d) in H by lia.
    rewrite <- H. rewrite firstn_app, firstn_all, Nat.sub_diag. cbn [firstn].
    apply app_nil_r.
Qed.

(** After the read of a chunk with ["PERIOD="], a numeral and a byte after
    it, [&buff[7]] holds the numeral and that byte, whatever follows in
    the chunk and whatever was in the buffer. *)
Lemma store_period_numeral (z : Z) (c : char) (junk stale : list char) :
  exists r,
    skipn 7 (store (lit "PERIOD=" ++ decimal z ++ c :: junk) stale)
    = decimal z ++ c :: r.
Proof.
  pose proof (decimal_length z) as Hlen.
  destruct (store_app_short (lit "PERIOD=" ++ decimal z ++ [c]) junk stale)
    as (r & E).
  { rewrite !length_app. cbn [lit list_ascii_of_string length]. lia. }
  rewrite <- !app_assoc in E. cbn [app] in E.
  rewrite E. exists r. reflexivity.
Qed.

Section ReaderClaims.

Context {FO : FloatOps}.

Lemma step_input_read (e : env) (s : state) (d : list char) :
  exit_status s = None -> input_at s = G_read -> read_in e = Some d ->
  step s (Ev_input e) =
  input_goto (G_log (length (read_chunk d))) (set_buff (store d (buff s)) s).
Proof.
  intros Hx Hpc Hrd. unfold step, get_commands_step.
  rewrite Hx, Hpc, Hrd. reflexivity.
Qed.

Lemma step_input_log (e : env) (s : state) (n : nat) :
  exit_status s = None -> input_at s = G_log n -> 0 <= write_rc e ->
  step s (Ev_input e) =
  if logfd s >? 0
  then input_goto G_dispatch (put_log (LogCommand (firstn n (buff s))) s)
  else input_goto G_dispatch s.
Proof.
  intros Hx Hpc Hw. unfold step, get_commands_step.
  rewrite Hx, Hpc.
  destruct (Z.ltb_spec (write_rc e) 0) as [Hlt|_]; [lia|reflexivity].
Qed.

Lemma step_input_dispatch (e : env) (s : state) :
  exit_status s = None -> input_at s = G_dispatch ->
  step s (Ev_input e) = dispatch s.
Proof.
  intros Hx Hpc. unfold step, get_commands_step.
  rewrite Hx, Hpc. reflexivity.
Qed.

(** From the call of [read] on, with the log write (if any) succeeding,
    the reader reaches the tests with the chunk at the head of [buff] and
    nothing else changed but the log. *)
Lemma reader_chunk_dispatch (e : env) (s : state) (d : list char) :
  exit_status s = None -> input_at s = G_read ->
  read_in e = Some d -> 0 <= write_rc e ->
  exists s1,
    reader_chunk e s = dispatch s1 /\
    buff s1 = store d (buff s) /\
    globals_of s1 = globals_of s /\
    stdout s1 = stdout s /\ stderr s1 = stderr s /\
    exit_status s1 = None /\
    main_at s1 = main_at s /\ button_at s1 = button_at s /\
    handler_installed s1 = handler_installed s.
Proof.
  intros Hx Hpc Hrd Hw.
  unfold reader_chunk, run. cbn [fold_left].
  rewrite (step_input_read e s d Hx Hpc Hrd).
  set (s1 := input_goto _ _).
  assert (H1x : exit_status s1 = None) by exact Hx.
  assert (H1pc : input_at s1 = G_log (length (read_chunk d))) by reflexivity.
  rewrite (step_input_log e s1 _ H1x H1pc Hw).
  change (logfd s1) with (logfd s).
  destruct (logfd s >? 0).
  - rewrite step_input_dispatch by (exact Hx || reflexivity).
    eexists. split; [reflexivity|]. cbn -[store]. rewrite Hx. repeat split.
  - rewrite step_input_dispatch by (exact Hx || reflexivity).
    eexists. split; [reflexivity|]. cbn -[store]. rewrite Hx. repeat split.
Qed.

(** When none of the command words begins [buff], the tests print
    "Bad command" and change nothing else. *)
Lemma reader_chunk_other (e : env) (s : state) (d : list char) :
  exit_status s = None -> input_at s = G_read ->
  read_in e = Some d -> 0 <= write_rc e ->
  (forall p, In p commands -> ~ starts_with p (store d (buff s))) ->
  stderr (reader_chunk e s) = stderr s ++ [Fprintf "Bad command
"]
  /\ globals_of (reader_chunk e s) = globals_of s
  /\ stdout (reader_chunk e s) = stdout s
  /\ exit_status (reader_chunk e s) = None
  /\ input_at (reader_chunk e s) = G_while
  /\ main_at (reader_chunk e s) = main_at s
  /\ button_at (reader_chunk e s) = button_at s.
Proof.
  intros Hx Hpc Hrd Hw H.
  destruct (reader_chunk_dispatch e s d Hx Hpc Hrd Hw)
    as (s1 & E & Hb & Hg & Ho & He & Hx1 & Hm & Hbt & _).
  rewrite E, dispatch_other by (rewrite Hb; exact H).
  unfold globals_of in *. cbn.
  now rewrite He, Hg, Ho, Hx1, Hm, Hbt.
Qed.

(** A chunk that neither begins with a command word nor is a proper
    beginning of one leaves a buffer that begins with none. *)
Lemma decided_chunk_unmatched (d stale : list char) :
  (forall p, In p commands -> ~ starts_with p d /\ ~ proper_beginning d p) ->
  forall p, In p commands -> ~ starts_with p (store d stale).
Proof.
  intros H p Hin Hp. destruct (H p Hin) as [H1 H2].
  destruct (store_decides p d stale Hin Hp); contradiction.
Qed.

(** C4, as the code has it.  A chunk that begins, byte for byte, with one
    of the six command words has that word's effect: OFF, while the
    handler of SIGINT has not run yet, sets the shutdown flag and ends the
    reader thread; STOP and START clear and set [gen_reports]; SCALE=F and
    SCALE=C set [scale]; PERIOD= followed in the chunk by the decimal
    numeral of an [int] and a byte that is not a digit (the newline of a
    line) stores that [int] in [period], zero and negative ones as they
    are.  A chunk that begins with none of the words and is not a proper
    beginning of one changes no global. *)
Theorem command_reader_applies_commands :
  forall (e : env) (s : state) (d : list char),
    exit_status s = None -> input_at s = G_read ->
    read_in e = Some d -> 0 <= write_rc e ->
    let s' := reader_chunk e s in
    (starts_with "OFF" d -> handler_installed s = true ->
       globals_of s' = (1, gen_reports s, period s, scale s) /\
       input_at s' = G_exited /\ exit_status s' = None)
    /\ (starts_with "STOP" d ->
       globals_of s' = (user_int s, 0, period s, scale s) /\
       input_at s' = G_while)
    /\ (starts_with "START" d ->
       globals_of s' = (user_int s, 1, period s, scale s) /\
       input_at s' = G_while)
    /\ (starts_with "SCALE=F" d ->
       globals_of s' = (user_int s, gen_reports s, period s, "F"%char) /\
       input_at s' = G_while)
    /\ (starts_with "SCALE=C" d ->
       globals_of s' = (user_int s, gen_reports s, period s, "C"%char) /\
       input_at s' = G_while)
    /\ (forall (z : Z) (c : char) (junk : list char),
         INT_MIN <= z <= INT_MAX -> isdigit c = false ->
         d = lit "PERIOD=" ++ decimal z ++ c :: junk ->
         globals_of s' = (user_int s, gen_reports s, z, scale s) /\
         input_at s' = G_while)
    /\ ((forall p, In p commands -> ~ starts_with p d /\ ~ proper_beginning d p) ->
       globals_of s' = globals_of s /\ input_at s' = G_while).
Proof.
  intros e s d Hx Hpc Hrd Hw s'. subst s'.
  destruct (reader_chunk_dispatch e s d Hx Hpc Hrd Hw)
    as (s1 & E & Hb & Hg & _ & _ & Hx1 & _ & _ & Hh).
  unfold globals_of in Hg. injection Hg as Hu Hr Hp Hs.
  assert (K : forall p, In p commands -> starts_with p d -> starts_with p (buff s1)).
  { intros p Hin H. rewrite Hb. now apply chunk_prefix. }
  repeat apply conj.
  - intros H Hi. rewrite E, dispatch_OFF by (apply K; [cbn; tauto|exact H]).
    unfold globals_of, raise, deliver, signal_handler. rewrite Hh, Hi. cbn.
    now rewrite Hr, Hp, Hs, Hx1.
  - intros H. rewrite E, dispatch_STOP by (apply K; [cbn; tauto|exact H]).
    unfold globals_of. cbn. now rewrite Hu, Hp, Hs.
  - intros H. rewrite E, dispatch_START by (apply K; [cbn; tauto|exact H]).
    unfold globals_of. cbn. now rewrite Hu, Hp, Hs.
  - intros H. rewrite E, dispatch_SCALE_F by (apply K; [cbn; tauto|exact H]).
    unfold globals_of. cbn. now rewrite Hu, Hr, Hp.
  - intros H. rewrite E, dispatch_SCALE_C by (apply K; [cbn; tauto|exact H]).
    unfold globals_of. cbn. now rewrite Hu, Hr, Hp.
  - intros z c junk Hz Hc Hd.
    assert (H : starts_with "PERIOD=" d) by (rewrite Hd; reflexivity).
    rewrite E, dispatch_PERIOD by (apply K; [cbn; tauto|exact H]).
    unfold globals_of. cbn -[atoi store skipn lit decimal app].
    rewrite Hb, Hd.
    destruct (store_period_numeral z c junk (buff s)) as (r & ->).
    rewrite atoi_decimal by (try exact Hz; exact Hc).
    now rewrite Hu, Hr, Hs.
  - intros H.
    destruct (reader_chunk_other e s d Hx Hpc Hrd Hw
                (decided_chunk_unmatched d (buff s) H)) as (_ & G & _ & _ & I & _).
    split; assumption.
Qed.

(** C7, as the code has it.  When the chunk read begins with none of the
    six command words and is not a proper beginning of one, as for BOGUS,
    the reader prints the one diagnostic "Bad command" on stderr and
    nothing else happens: the four globals, stdout and the other threads
    are as before, the process has not exited and the reader is back at
    its loop test. *)
Theorem unrecognized_command_reported :
  forall (e : env) (s : state) (d : list char),
    exit_status s = None -> input_at s = G_read ->
    read_in e = Some d -> 0 <= write_rc e ->
    (forall p, In p commands -> ~ starts_with p d /\ ~ proper_beginning d p) ->
    let s' := reader_chunk e s in
    stderr s' = stderr s ++ [Fprintf "Bad command
"]
    /\ globals_of s' = globals_of s
    /\ stdout s' = stdout s
    /\ exit_status s' = None
    /\ input_at s' = G_while
    /\ main_at s' = main_at s /\ button_at s' = button_at s.
Proof.
  intros e s d Hx Hpc Hrd Hw H s'. subst s'.
  apply (reader_chunk_other e s d Hx Hpc Hrd Hw).
  apply decided_chunk_unmatched, H.
Qed.

(** C10.  Each command other than OFF writes one global and leaves the
    other three as they were: STOP and START write [gen_reports] only,
    SCALE=F and SCALE=C write [scale] only, PERIOD= writes [period] only,
    and none of them writes [user_int]. *)
Theorem commands_write_one_global :
  forall (s : state),
    (starts_with "STOP" (buff s) ->
       globals_of (dispatch s) = (user_int s, 0, period s, scale s))
    /\ (starts_with "START" (buff s) ->
       globals_of (dispatch s) = (user_int s, 1, period s, scale s))
    /\ (starts_with "SCALE=F" (buff s) ->
       globals_of (dispatch s) = (user_int s, gen_reports s, period s, "F"%char))
    /\ (starts_with "SCALE=C" (buff s) ->
       globals_of (dispatch s) = (user_int s, gen_reports s, period s, "C"%char))
    /\ (starts_with "PERIOD=" (buff s) ->
       globals_of (dispatch s) =
         (user_int s, gen_reports s, atoi (skipn 7 (buff s)), scale s)).
Proof.
  intros s. repeat apply conj; intros H.
  - rewrite dispatch_STOP by exact H. reflexivity.
  - rewrite dispatch_START by exact H. reflexivity.
  - rewrite dispatch_SCALE_F by exact H. reflexivity.
  - rewrite dispatch_SCALE_C by exact H. reflexivity.
  - rewrite dispatch_PERIOD by exact H. reflexivity.
Qed.

End ReaderClaims.

(** ** The process *)

Ltac break_step :=
  repeat match goal with
         | |- context [match ?x with _ => _ end] => destruct x eqn:?
         end.

Section ProcessClaims.

Context {FO : FloatOps}.

Lemma exited_step (s : state) (c : Z) (ev : event) :
  exit_status s = Some c -> step s ev = s.
Proof. intros H. unfold step. now rewrite H. Qed.

Lemma exited_run (evs : list event) :
  forall (s : state) (c : Z), exit_status s = Some c -> run evs s = s.
Proof.
  induction evs as [|ev evs IH]; intros s c H; [reflexivity|].
  unfold run in *. cbn [fold_left].
  rewrite (exited_step s c ev H). now apply (IH s c).
Qed.

(** No step of any thread and no signal clears the flag. *)
Lemma step_user_int (s : state) (ev : event) :
  user_int (step s ev) = user_int s \/ user_int (step s ev) = 1.
Proof.
  unfold step, main_step, get_commands_step, check_button_step, dispatch,
    raise, deliver, kill, signal_handler, die.
  break_step; cbn; auto.
Qed.

Lemma run_user_int (evs : list event) :
  forall (s : state), user_int s <> 0 -> user_int (run evs s) <> 0.
Proof.
  induction evs as [|ev evs IH]; intros s H; [exact H|].
  unfold run in *. cbn [fold_left]. apply IH.
  destruct (step_user_int s ev) as [E|E]; rewrite E; [exact H|discriminate].
Qed.

(** The body of the handler does what its comment says: it writes the
    flag only to set it to 1, and running it again changes nothing. *)
Lemma signal_handler_body (sig : Z) (s : state) :
  (user_int (signal_handler sig s) = 1 \/ signal_handler sig s = s)
  /\ signal_handler sig (signal_handler sig s) = signal_handler sig s.
Proof.
  unfold signal_handler. destruct (sig =? SIGINT); split; auto.
Qed.

(** C2, at the failing input.  The flag is set by the first SIGINT and is
    never cleared, but a second request is not what one request is: the
    handler having run once, SIGINT has its default action again, and a
    second SIGINT (here two from outside, and a button press after one)
    terminates the process where one leaves it running with the flag
    set. *)
Theorem second_request_terminates_the_process :
  exit_status (run [Ev_sigint] fresh) = None
  /\ user_int (run [Ev_sigint] fresh) = 1
  /\ handler_installed (run [Ev_sigint] fresh) = false
  /\ exit_status (run [Ev_sigint; Ev_sigint] fresh) = Some (killed_by SIGINT)
  /\ exit_status
       (run [Ev_sigint; Ev_button env_off_pressed; Ev_button env_off_pressed]
          (run [Ev_button env_off_pressed] fresh))
     = Some (killed_by SIGINT)
  /\ stdout (run ([Ev_sigint; Ev_sigint] ++ main_winds_down) fresh) = [].
Proof. repeat split. Qed.

(** C8.  A failed write to the log ends the whole process at once, with a
    diagnostic on stderr and exit status 1, in each of the three places
    that write to it: the sample record and the SHUTDOWN record of [main]
    when a log file was named, and the copy of the bytes read by
    [get_commands] when its descriptor is positive.  The write is not
    attempted again and nothing is appended to the log; after the exit no
    thread takes a step. *)
Theorem log_write_failure_is_fatal :
  forall (e : env) (s : state),
    exit_status s = None -> write_rc e < 0 ->
    (forall b, logfile s = true ->
               main_at s = M_log b \/ main_at s = M_shutdown_log b ->
               let s' := step s (Ev_main e) in
               exit_status s' = Some 1
               /\ stderr s' = stderr s ++ [Perror "Couldn't write to log file"]
               /\ log s' = log s
               /\ forall evs, run evs s' = s')
    /\ (forall n, logfd s > 0 -> input_at s = G_log n ->
                  let s' := step s (Ev_input e) in
                  exit_status s' = Some 1
                  /\ stderr s' = stderr s ++ [Perror "Failed to log command"]
                  /\ log s' = log s
                  /\ forall evs, run evs s' = s').
Proof.
  intros e s Hx Hw.
  assert (Hlt : (write_rc e <? 0) = true) by (apply Z.ltb_lt; exact Hw).
  split.
  - intros b Hlog Hpc s'. subst s'.
    assert (E : step s (Ev_main e) = die "Couldn't write to log file" s).
    { unfold step, main_step. rewrite Hx.
      destruct Hpc as [-> | ->]; now rewrite Hlog, Hlt. }
    rewrite E. repeat split.
    intros evs. now apply (exited_run evs _ 1).
  - intros n Hfd Hpc s'. subst s'.
    assert (E : step s (Ev_input e) = die "Failed to log command" s).
    { unfold step, get_commands_step. rewrite Hx, Hpc, Hlt.
      destruct (Z.gtb_spec (logfd s) 0) as [_|Hle]; [reflexivity|lia]. }
    rewrite E. repeat split.
    intros evs. now apply (exited_run evs _ 1).
Qed.

(** *** The Shutdown Record *)

Lemma shutdown_count_app (l : list record) (r : record) :
  shutdown_count (l ++ [r]) =
  (shutdown_count l + if is_shutdown r then 1 else 0)%nat.
Proof.
  unfold shutdown_count. rewrite filter_app, length_app. cbn [filter].
  destruct (is_shutdown r); reflexivity.
Qed.

Lemma ends_with_shutdown_app (l : list record) (r : record) :
  ends_with_shutdown (l ++ [r]) = is_shutdown r.
Proof. unfold ends_with_shutdown. now rewrite rev_unit. Qed.

Lemma shutdown_logged_app (l : list log_entry) (x : log_entry) :
  shutdown_logged (l ++ [x]) =
  (shutdown_logged l +
   match x with
   | LogRecord r => if is_shutdown r then 1 else 0
   | LogCommand _ => 0
   end)%nat.
Proof.
  unfold shutdown_logged. rewrite filter_app, length_app. cbn [filter].
  destruct x as [r|b]; [destruct (is_shutdown r)|]; reflexivity.
Qed.

Lemma startup_inv (c : config) : shutdown_inv (startup c).
Proof.
  unfold startup, die.
  break_step; unfold shutdown_inv; cbn; rewrite ?andb_false_r;
    repeat split; try discriminate; try reflexivity.
Qed.

Lemma step_inv (s : state) (ev : event) :
  shutdown_inv s -> shutdown_inv (step s ev).
Proof.
  intros I.
  destruct s as [ui gr pe sc lf fd mpc ipc bf bpc out err lg sl ex hi].
  unfold step. cbn [exit_status].
  destruct ex as [c|]; [exact I|].
  unfold shutdown_inv in I. cbn [stdout main_at log logfile exit_status] in I.
  destruct I as (I1 & I2 & I3 & I4 & I5 & I6).
  destruct ev as [e|e|e|];
    unfold main_step, get_commands_step, check_button_step, dispatch, raise,
      deliver, kill, signal_handler, die;
    cbn [main_at user_int gen_reports logfile button_at input_at logfd buff];
    [destruct mpc| | |];
    break_step; unfold shutdown_inv;
    cbn [stdout main_at log logfile exit_status main_goto put_stdout put_log
         put_stderr put_sleep exit shutdown_printed shutdown_log_done
         user_int gen_reports period scale logfd input_at buff button_at
         stderr sleeps set_user_int set_gen_reports set_period set_scale
         set_buff input_goto button_goto] in *;
    rewrite ?shutdown_count_app, ?ends_with_shutdown_app, ?shutdown_logged_app;
    rewrite ?andb_false_r, ?andb_true_r in *;
    cbn [is_shutdown andb] in *;
    try rewrite (I4 _ eq_refl); try rewrite (I5 _ eq_refl);
    repeat split; try discriminate; try lia; try congruence; auto;
    intros b' Hb'; injection Hb' as <-; reflexivity.
Qed.

Lemma run_inv (evs : list event) :
  forall (s : state), shutdown_inv s -> shutdown_inv (run evs s).
Proof.
  induction evs as [|ev evs IH]; intros s I; [exact I|].
  unfold run in *. cbn [fold_left]. apply IH, step_inv, I.
Qed.

(** C1, at the failing input.  A button press and an OFF command close
    together do not give one Shutdown Record: the press runs the handler,
    which the one-shot [signal] then uninstalls, and the [raise] of OFF
    terminates the process with SIGINT's default action, [main] still in
    its loop and no SHUTDOWN line printed.  With the OFF command alone the
    same schedule ends with status 0 and the line printed once. *)
Theorem two_triggers_print_no_shutdown_record :
  exit_status (run two_triggers fresh) = Some (killed_by SIGINT)
  /\ sampling (main_at (run two_triggers fresh)) = true
  /\ shutdown_count (stdout (run two_triggers fresh)) = 0%nat
  /\ exit_status (run one_trigger fresh) = Some 0
  /\ shutdown_count (stdout (run one_trigger fresh)) = 1%nat.
Proof. repeat split. Qed.

(** *** The sampling loop while reports are paused *)

(** C3, as the code has it.  A pass through the loop with [gen_reports]
    clear prints nothing and does not call [sleep]: [main] is back at the
    loop test with the state untouched.  The loop keeps running, so with
    [gen_reports] set again (by START) the next pass prints one sample and
    then sleeps [period] seconds. *)
Theorem paused_tick_neither_prints_nor_sleeps :
  forall (e : env) (s : state),
    exit_status s = None -> main_at s = M_while -> user_int s = 0 ->
    (gen_reports s = 0 -> sampler_tick e s = s)
    /\ (gen_reports s <> 0 -> 0 <= write_rc e ->
        let s' := sampler_tick e s in
        stdout s' = stdout s ++ [Sample (now e) (get_temperature (adc e) (scale s))]
        /\ sleeps s' = sleeps s ++ [to_unsigned (period s)]
        /\ main_at s' = M_while /\ exit_status s' = None)
    /\ (gen_reports s = 0 -> input_at s = G_dispatch ->
        starts_with "START" (buff s) -> 0 <= write_rc e ->
        let s' := sampler_tick e (step s (Ev_input e)) in
        stdout s' = stdout s ++ [Sample (now e) (get_temperature (adc e) (scale s))]
        /\ sleeps s' = sleeps s ++ [to_unsigned (period s)]
        /\ main_at s' = M_while).
Proof.
  intros e s Hx Hpc Hu.
  assert (Hon : forall t : state,
             exit_status t = None -> main_at t = M_while -> user_int t = 0 ->
             gen_reports t <> 0 -> 0 <= write_rc e ->
             stdout (sampler_tick e t) =
               stdout t ++ [Sample (now e) (get_temperature (adc e) (scale t))]
             /\ sleeps (sampler_tick e t) = sleeps t ++ [to_unsigned (period t)]
             /\ main_at (sampler_tick e t) = M_while
             /\ exit_status (sampler_tick e t) = None).
  { intros t Tx Tpc Tu Tg Tw.
    destruct t as [ui gr pe sc lf fd mpc ipc bf bpc out err lg sl ex hi].
    cbn [exit_status main_at user_int gen_reports] in *. subst.
    apply Z.eqb_neq in Tg. apply Z.ltb_ge in Tw.
    unfold sampler_tick. cbn -[get_temperature to_unsigned]. rewrite Tg.
    cbn -[get_temperature to_unsigned].
    destruct lf; rewrite ?Tw; cbn -[get_temperature to_unsigned]; repeat split. }
  repeat apply conj.
  - intros Hg.
    destruct s as [ui gr pe sc lf fd mpc ipc bf bpc out err lg sl ex hi].
    cbn [exit_status main_at user_int gen_reports] in *. subst.
    reflexivity.
  - intros Hg Hw s'. subst s'. now apply Hon.
  - intros Hg Hin Hst Hw s'. subst s'.
    rewrite (step_input_dispatch e s Hx Hin), (dispatch_START s Hst).
    destruct (Hon (input_goto G_while (set_gen_reports 1 s))) as (A & B & C & _);
      try assumption; try discriminate.
    auto.
Qed.

End ProcessClaims.

(** * The theorems at the sample inputs *)

Lemma paused_tick_neither_prints_nor_sleeps_witness :
  exit_status paused = None /\ main_at paused = M_while
  /\ user_int paused = 0 /\ gen_reports paused = 0
  /\ sampler_tick env_bogus paused = paused.
Proof.
  do 4 (split; [reflexivity|]).
  pose proof (@paused_tick_neither_prints_nor_sleeps SymFloat env_bogus paused
                eq_refl eq_refl eq_refl) as (H & _).
  exact (H eq_refl).
Defined.

(** C3, as the claim states it, fails: after STOP a pass through the loop
    makes no call of [sleep] at all, where the claim has one of [period]
    seconds. *)
Lemma paused_tick_sleeps_counterexample :
  exit_status paused = None /\ main_at paused = M_while
  /\ user_int paused = 0 /\ gen_reports paused = 0
  /\ stdout (sampler_tick env_bogus paused) = stdout paused
  /\ main_at (sampler_tick env_bogus paused) = M_while
  /\ sleeps (sampler_tick env_bogus paused) = []
  /\ sleeps (sampler_tick env_bogus paused)
     <> sleeps paused ++ [to_unsigned (period paused)].
Proof. repeat split. discriminate. Qed.

Lemma command_reader_applies_commands_witness :
  (starts_with "STOP" (lit "STOP
")
   /\ globals_of (reader_chunk env_stop (at_read fresh)) = (0, 0, 1, "F"%char))
  /\ (INT_MIN <= -5 <= INT_MAX
      /\ globals_of (reader_chunk env_period (at_read fresh)) = (0, 1, -5, "F"%char))
  /\ (starts_with "OFF" (lit "OFF
") /\ handler_installed (at_read fresh) = true
      /\ globals_of (reader_chunk env_off (at_read fresh)) = (1, 1, 1, "F"%char)).
Proof.
  split; [|split].
  - split; [reflexivity|].
    pose proof (@command_reader_applies_commands SymFloat env_stop (at_read fresh)
                  (lit "STOP
") eq_refl eq_refl eq_refl ltac:(discriminate))
      as (_ & H & _).
    exact (proj1 (H eq_refl)).
  - assert (Hz : INT_MIN <= -5 <= INT_MAX) by (unfold INT_MIN, INT_MAX; lia).
    split; [exact Hz|].
    pose proof (@command_reader_applies_commands SymFloat env_period (at_read fresh)
                  (lit "PERIOD=-5
") eq_refl eq_refl eq_refl ltac:(discriminate))
      as (_ & _ & _ & _ & _ & H & _).
    exact (proj1 (H (-5) "010"%char [] Hz eq_refl eq_refl)).
  - split; [reflexivity|]. split; [reflexivity|].
    pose proof (@command_reader_applies_commands SymFloat env_off (at_read fresh)
                  (lit "OFF
") eq_refl eq_refl eq_refl ltac:(discriminate))
      as (H & _).
    exact (proj1 (H eq_refl eq_refl)).
Defined.

(** C4, as the claim states it, fails on chunks that are not whole lines
    and on a second request.  The eight bytes PERIOD=5 read after the line
    PERIOD=1234 begin with the word and their integer is 5, yet 5234 is
    stored: [atoi] runs on into the bytes the earlier read left in
    [buff].  The one byte O read after the line xFF begins with none of
    the words, yet it is taken as OFF.  And OFF read after a SIGINT has
    run the handler does not end the reader: its [raise] terminates the
    process. *)
Lemma command_reader_counterexample :
  (starts_with "PERIOD=" (lit "PERIOD=5")
   /\ atoi (skipn 7 (lit "PERIOD=5")) = 5
   /\ period (reader_chunk env_period_5 (at_read after_period_1234)) = 5234)
  /\ ((forall p, In p commands -> ~ starts_with p (lit "O"))
      /\ user_int (at_read after_xff) = 0
      /\ user_int (reader_chunk env_O (at_read after_xff)) = 1
      /\ input_at (reader_chunk env_O (at_read after_xff)) = G_exited)
  /\ (starts_with "OFF" (lit "OFF
")
      /\ exit_status (run [Ev_sigint] (at_read fresh)) = None
      /\ exit_status (reader_chunk env_off (run [Ev_sigint] (at_read fresh)))
         = Some (killed_by SIGINT)).
Proof.
  split; [repeat split|]. split; [|repeat split].
  split; [|repeat split].
  intros p Hin. cbn in Hin.
  repeat (destruct Hin as [<-|Hin]; [discriminate|]). contradiction.
Qed.

Lemma unrecognized_command_reported_witness :
  (forall p, In p commands ->
             ~ starts_with p (lit "BOGUS") /\ ~ proper_beginning (lit "BOGUS") p)
  /\ stderr (reader_chunk (answers 32 "BOGUS" 0) (at_read after_period_1234))
     = [Fprintf "Bad command
"]
  /\ globals_of (reader_chunk (answers 32 "BOGUS" 0) (at_read after_period_1234))
     = globals_of (at_read after_period_1234).
Proof.
  assert (H : forall p, In p commands ->
                ~ starts_with p (lit "BOGUS") /\ ~ proper_beginning (lit "BOGUS") p).
  { intros p Hin. cbn in Hin. unfold proper_beginning.
    repeat (destruct Hin as [<-|Hin];
            [split; [discriminate|intros [_ E]; discriminate E]|]).
    contradiction. }
  split; [exact H|].
  pose proof (@unrecognized_command_reported SymFloat (answers 32 "BOGUS" 0)
                (at_read after_period_1234)
                (lit "BOGUS") eq_refl eq_refl eq_refl ltac:(discriminate) H)
    as (H1 & H2 & _).
  split; [exact H1|exact H2].
Defined.

(** C7, as the claim states it, fails on a chunk that is a proper
    beginning of a command word: the one byte O, read after the line xFF
    has left FF behind it in [buff], begins with none of the six words,
    yet no diagnostic is printed for it, the shutdown flag is set and the
    reader ends. *)
Lemma unrecognized_command_counterexample :
  (forall p, In p commands -> ~ starts_with p (lit "O"))
  /\ exit_status (at_read after_xff) = None
  /\ input_at (at_read after_xff) = G_read
  /\ stderr (reader_chunk env_O (at_read after_xff)) = stderr (at_read after_xff)
  /\ globals_of (at_read after_xff) = (0, 1, 1, "F"%char)
  /\ globals_of (reader_chunk env_O (at_read after_xff)) = (1, 1, 1, "F"%char)
  /\ input_at (reader_chunk env_O (at_read after_xff)) = G_exited.
Proof.
  split; [|repeat split].
  intros p Hin. cbn in Hin.
  repeat (destruct Hin as [<-|Hin]; [discriminate|]). contradiction.
Qed.

Lemma log_write_failure_is_fatal_witness :
  let s := run [Ev_main env_stop; Ev_main env_stop; Ev_main env_stop] fresh_logged in
  exit_status s = None /\ write_rc env_write_fails < 0 /\ logfile s = true
  /\ exit_status (step s (Ev_main env_write_fails)) = Some 1.
Proof.
  cbv zeta.
  assert (Hw : write_rc env_write_fails < 0) by reflexivity.
  split; [reflexivity|]. split; [exact Hw|]. split; [reflexivity|].
  pose proof (@log_write_failure_is_fatal SymFloat env_write_fails
                (run [Ev_main env_stop; Ev_main env_stop; Ev_main env_stop] fresh_logged)
                eq_refl Hw) as (H & _).
  exact (proj1 (H _ eq_refl (or_introl eq_refl))).
Defined.

Lemma commands_write_one_global_witness :
  starts_with "STOP" (buff (run [Ev_input env_stop; Ev_input env_stop] (at_read fresh)))
  /\ globals_of (dispatch (run [Ev_input env_stop; Ev_input env_stop] (at_read fresh)))
     = (0, 0, 1, "F"%char).
Proof.
  split; [reflexivity|].
  pose proof (@commands_write_one_global SymFloat
                (run [Ev_input env_stop; Ev_input env_stop] (at_read fresh)))
    as (H & _).
  exact (H eq_refl).
Defined.

(** A chunk shorter than a command word is completed by the bytes an
    earlier read left in [buff]: the two bytes ST read after the line STOP
    are taken as STOP once more, with no diagnostic. *)
Example short_chunk_completed_by_stale_bytes :
  let s := reader_chunk (answers 32 "ST" 0) (at_read paused) in
  buff s = lit "STOP
" /\ gen_reports s = 0 /\ stderr s = [].
Proof. repeat split. Qed.

(** * More of the program *)

Ltac eqb_facts :=
  repeat match goal with
         | H : (_ =? _) = true |- _ => apply Z.eqb_eq in H
         | H : (_ =? _) = false |- _ => apply Z.eqb_neq in H
         | H : (_ >? _) = true |- _ => apply Z.gtb_lt in H
         | H : (_ >? _) = false |- _ => rewrite Z.gtb_ltb in H; apply Z.ltb_ge in H
         | H : (_ <? _) = true |- _ => apply Z.ltb_lt in H
         | H : (_ <? _) = false |- _ => apply Z.ltb_ge in H
         end.

Ltac unfold_steps :=
  unfold step, main_step, get_commands_step, check_button_step, dispatch,
    raise, deliver, kill, signal_handler, die.

Ltac state_fields :=
  cbn [user_int gen_reports period scale logfile logfd main_at input_at buff
       button_at stdout stderr log sleeps exit_status handler_installed
       set_user_int set_gen_reports set_period set_scale main_goto input_goto
       set_buff button_goto put_stdout put_stderr put_log put_sleep exit
       uninstall] in *.

Section Invariants.

Context {FO : FloatOps}.

Lemma last_diag_fatal_app (l : list diag) (d : diag) :
  last_diag_fatal (l ++ [d]) = fatal_diag d.
Proof. unfold last_diag_fatal. now rewrite rev_unit. Qed.

Lemma startup_sync_inv (c : config) : sync_inv (startup c).
Proof.
  unfold startup, die, sync_inv.
  break_step; state_fields; cbn [sampling app];
    repeat split; intros; try discriminate; try (destruct H; discriminate);
    try (injection H as <-; right; left; split; reflexivity).
Qed.

Lemma step_sync_inv (s : state) (ev : event) :
  sync_inv s -> sync_inv (step s ev).
Proof.
  intros I.
  destruct s as [ui gr pe sc lf fd mpc ipc bf bpc out err lg sl ex hi].
  unfold step. cbn [exit_status].
  destruct ex as [c|]; [exact I|].
  unfold sync_inv in I. state_fields.
  destruct I as (I1 & I2 & I3 & I4 & I5 & _ & I7).
  destruct hi; [clear I7|specialize (I7 eq_refl)];
  (destruct ev as [e|e|e|]; unfold_steps; state_fields;
    [destruct mpc| | |];
    break_step; unfold sync_inv; state_fields; cbn [sampling] in *;
    eqb_facts;
    repeat match goal with
           | |- _ /\ _ => split
           end;
    try (intros c Hc; first [discriminate Hc | injection Hc as <-];
         first [ left; split; reflexivity
               | right; left; split;
                 [reflexivity|rewrite last_diag_fatal_app; reflexivity]
               | right; right; split; reflexivity ]);
    intros; try discriminate; try congruence; try lia; auto;
    try (match goal with H : _ \/ _ |- _ => destruct H; try discriminate end);
    auto;
    exfalso;
    match goal with
    | H : _ = M_return |- _ =>
        first [ discriminate (I5 H) | discriminate (I4 (or_intror H)) ]
    | H : _ = M_join_input |- _ => discriminate (I4 (or_introl H))
    end).
Qed.

Lemma run_sync_inv (evs : list event) :
  forall (s : state), sync_inv s -> sync_inv (run evs s).
Proof.
  induction evs as [|ev evs IH]; intros s I; [exact I|].
  unfold run in *. cbn [fold_left]. apply IH, step_sync_inv, I.
Qed.

Lemma logged_records_app (l : list log_entry) (x : log_entry) :
  logged_records (l ++ [x]) =
  logged_records l ++ match x with LogRecord r => [r] | LogCommand _ => [] end.
Proof. unfold logged_records. rewrite flat_map_app. cbn. now rewrite app_nil_r. Qed.

Lemma logged_commands_app (l : list log_entry) (x : log_entry) :
  logged_commands (l ++ [x]) =
  logged_commands l ++ match x with LogRecord _ => [] | LogCommand b => [b] end.
Proof. unfold logged_commands. rewrite flat_map_app. cbn. now rewrite app_nil_r. Qed.

Lemma startup_log_inv (c : config) : log_inv (startup c).
Proof.
  unfold startup, die, log_inv.
  break_step; state_fields; cbn [pending app logged_records logged_commands flat_map];
    repeat split; intros; try discriminate; try reflexivity;
    cbn [andb] in *; try discriminate.
Qed.

Lemma step_log_inv (s : state) (ev : event) :
  log_inv s -> log_inv (step s ev).
Proof.
  intros I.
  destruct s as [ui gr pe sc lf fd mpc ipc bf bpc out err lg sl ex hi].
  unfold step. cbn [exit_status].
  destruct ex as [c|]; [exact I|].
  unfold log_inv in I. state_fields.
  destruct I as (L1 & L2 & L3 & L4).
  destruct ev as [e|e|e|]; unfold_steps; state_fields;
    [destruct mpc| | |];
    break_step; unfold log_inv; state_fields; cbn [pending] in *;
    eqb_facts;
    rewrite ?logged_records_app, ?logged_commands_app, ?app_nil_r in *;
    repeat split; intros; try discriminate; try lia; auto;
    try (rewrite <- L1 by reflexivity; rewrite <- ?app_assoc; reflexivity);
    try (rewrite L1 by reflexivity; reflexivity);
    try (rewrite (L1 ltac:(assumption)); reflexivity).
Qed.

Lemma run_log_inv (evs : list event) :
  forall (s : state), log_inv s -> log_inv (run evs s).
Proof.
  induction evs as [|ev evs IH]; intros s I; [exact I|].
  unfold run in *. cbn [fold_left]. apply IH, step_log_inv, I.
Qed.

Lemma log_nil (l : list log_entry) :
  logged_records l = [] -> logged_commands l = [] -> l = [].
Proof.
  destruct l as [|[r|b] l]; [reflexivity| |]; cbn; discriminate.
Qed.

Lemma sample_count_app (l : list record) (r : record) :
  sample_count (l ++ [r]) =
  (sample_count l + if is_shutdown r then 0 else 1)%nat.
Proof.
  unfold sample_count. rewrite filter_app, length_app. cbn [filter].
  destruct (is_shutdown r); reflexivity.
Qed.

Lemma step_sample_sleep (s : state) (ev : event) :
  sample_count (stdout s) = (length (sleeps s) + unslept (main_at s))%nat ->
  sample_count (stdout (step s ev))
  = (length (sleeps (step s ev)) + unslept (main_at (step s ev)))%nat.
Proof.
  intros I.
  destruct s as [ui gr pe sc lf fd mpc ipc bf bpc out err lg sl ex hi].
  unfold step. cbn [exit_status].
  destruct ex as [c|]; [exact I|].
  state_fields.
  destruct ev as [e|e|e|]; unfold_steps; state_fields;
    [destruct mpc| | |];
    break_step; state_fields; cbn [unslept] in *;
    rewrite ?sample_count_app, ?length_app; cbn [is_shutdown length]; lia.
Qed.

Lemma run_sample_sleep (evs : list event) :
  forall (s : state),
    sample_count (stdout s) = (length (sleeps s) + unslept (main_at s))%nat ->
    sample_count (stdout (run evs s))
    = (length (sleeps (run evs s)) + unslept (main_at (run evs s)))%nat.
Proof.
  induction evs as [|ev evs IH]; intros s I; [exact I|].
  unfold run in *. cbn [fold_left]. apply IH, step_sample_sleep, I.
Qed.




(** X1.  In every state the process reaches, [main] is outside the
    sampling loop only if [user_int] is set, a thread has ended only if
    [user_int] is set, and a process that has returned 0 has the flag set
    and both threads ended and joined. *)
Theorem threads_end_only_after_shutdown :
  forall (c : config) (evs : list event),
    let s := run evs (startup c) in
    (sampling (main_at s) = false -> user_int s <> 0)
    /\ (input_at s = G_exited -> user_int s <> 0)
    /\ (button_at s = B_exited -> user_int s <> 0)
    /\ (exit_status s = Some 0 ->
        user_int s <> 0 /\ main_at s = M_return
        /\ input_at s = G_exited /\ button_at s = B_exited).
Proof.
  intros c evs s.
  destruct (run_sync_inv evs _ (startup_sync_inv c))
    as (I1 & I2 & I3 & I4 & I5 & I6 & _).
  fold s in I1, I2, I3, I4, I5, I6.
  repeat apply conj; try assumption.
  intros Hx. destruct (I6 0 Hx) as [[_ Hm]|[[Hc _]|[Hc _]]]; try discriminate.
  repeat split; auto.
Qed.




(** X3.  When a log file is named, the records in the log are the records
    printed, in the same order, each once, the record [main] has printed
    and not yet written excepted.  The bytes read by [get_commands] are
    never in the log unless its descriptor is positive. *)
Theorem log_follows_stdout :
  forall (c : config) (evs : list event),
    let s := run evs (startup c) in
    (logfile s = true -> logged_records (log s) ++ pending (main_at s) = stdout s)
    /\ (logfd s <= 0 -> logged_commands (log s) = []).
Proof.
  intros c evs s.
  destruct (run_log_inv evs _ (startup_log_inv c)) as (L1 & _ & L3 & _).
  split; assumption.
Qed.

(** X4.  When no log file is named nothing is ever written to a log:
    neither a record nor the bytes of a command. *)
Theorem no_logfile_no_log :
  forall (c : config) (evs : list event),
    opt_logfile c = false -> log (run evs (startup c)) = [].
Proof.
  intros c evs Hc.
  destruct (run_log_inv evs _ (startup_log_inv c)) as (_ & L2 & L3 & L4).
  assert (Hl : logfile (run evs (startup c)) = false).
  { clear L2 L3 L4.
    assert (H0 : logfile (startup c) = false).
    { unfold startup, die. rewrite Hc. break_step; reflexivity. }
    revert H0. generalize (startup c). 
    induction evs as [|ev evs IH]; intros s0 H0; [exact H0|].
    unfold run in *. cbn [fold_left]. apply IH.
    destruct s0 as [ui gr pe sc lf fd mpc ipc bf bpc out err lg sl ex hi].
    unfold step. cbn [exit_status]. destruct ex; [exact H0|].
    destruct ev; unfold_steps; state_fields; break_step; exact H0. }
  apply log_nil; [now apply L2|].
  apply L3. rewrite (L4 Hl). lia.
Qed.

(** X5.  In every state the process reaches, the samples printed are as
    many as the calls of [sleep], plus one while [main] is between the
    print of a sample and its sleep: the sampler sleeps once for each
    sample and never without one. *)
Theorem one_sleep_per_sample :
  forall (c : config) (evs : list event),
    let s := run evs (startup c) in
    sample_count (stdout s) = (length (sleeps s) + unslept (main_at s))%nat.
Proof.
  intros c evs s. apply run_sample_sleep.
  unfold startup, die. break_step; reflexivity.
Qed.

End Invariants.

Section Termination.

Context {FO : FloatOps}.

Lemma step_settings (s : state) (ev : event) :
  is_input_event ev = false \/ input_at s = G_exited ->
  settings_of (step s ev) = settings_of s
  /\ (input_at s = G_exited -> input_at (step s ev) = G_exited).
Proof.
  intros H.
  destruct s as [ui gr pe sc lf fd mpc ipc bf bpc out err lg sl ex hi].
  unfold step. cbn [exit_status].
  destruct ex as [c|]; [split; [reflexivity|auto]|].
  state_fields.
  destruct ev as [e|e|e|]; cbn [is_input_event] in H;
    try (destruct H as [H|H]; [discriminate|]; subst ipc);
    unfold_steps; state_fields;
    break_step; unfold settings_of; state_fields; split; auto.
Qed.

Lemma step_main_globals (s : state) (e : env) :
  globals_of (step s (Ev_main e)) = globals_of s.
Proof.
  destruct s as [ui gr pe sc lf fd mpc ipc bf bpc out err lg sl ex hi].
  unfold step. cbn [exit_status].
  destruct ex as [c|]; [reflexivity|].
  unfold_steps; state_fields; break_step; reflexivity.
Qed.

(** X6.  Only [get_commands] writes [gen_reports], [period] and [scale]:
    a schedule without a step of the reader leaves the three as they
    were, whatever [main], the button thread and the signals do; and
    [main] writes no global at all. *)
Theorem settings_have_one_writer :
  forall (evs : list event) (s : state),
    (forallb (fun ev => negb (is_input_event ev)) evs = true ->
     settings_of (run evs s) = settings_of s)
    /\ (forallb is_main_event evs = true ->
        globals_of (run evs s) = globals_of s).
Proof.
  induction evs as [|ev evs IH]; intros s; [split; reflexivity|].
  unfold run in *. cbn [fold_left forallb].
  destruct (IH (step s ev)) as [IH1 IH2].
  split; intros H; apply andb_true_iff in H; destruct H as [Hev Hevs].
  - rewrite (IH1 Hevs). apply step_settings. left.
    now apply negb_true_iff in Hev.
  - rewrite (IH2 Hevs). destruct ev; try discriminate.
    apply step_main_globals.
Qed.

(** X7.  Once [get_commands] has ended, by OFF or at its loop test, it
    stays ended and [gen_reports], [period] and [scale] never change
    again: what is typed afterwards has no effect. *)
Theorem settings_frozen_after_reader :
  forall (evs : list event) (s : state),
    input_at s = G_exited ->
    input_at (run evs s) = G_exited /\ settings_of (run evs s) = settings_of s.
Proof.
  induction evs as [|ev evs IH]; intros s H; [split; [exact H|reflexivity]|].
  unfold run in *. cbn [fold_left].
  destruct (step_settings s ev (or_intror H)) as [E K].
  destruct (IH (step s ev) (K H)) as [IH1 IH2].
  split; [exact IH1|]. now rewrite IH2.
Qed.

Lemma step_logfile (s : state) (ev : event) :
  logfile (step s ev) = logfile s /\ logfd (step s ev) = logfd s.
Proof.
  destruct s as [ui gr pe sc lf fd mpc ipc bf bpc out err lg sl ex hi].
  unfold step. cbn [exit_status]. destruct ex; [split; reflexivity|].
  destruct ev; unfold_steps; state_fields; break_step; split; reflexivity.
Qed.

Lemma step_ending (s : state) (ev : event) :
  sync_inv s -> user_int s <> 0 -> logfile s = false -> logfd s <= 0 ->
  alive_or_done s -> reads_succeed ev = true ->
  exit_status (step s ev) = Some (killed_by SIGINT)
  \/ (alive_or_done (step s ev)
      /\ (input_steps_left (input_at (step s ev))
          <= input_steps_left (input_at s) - (if is_input_event ev then 1 else 0))%nat
      /\ (button_steps_left (button_at (step s ev))
          <= button_steps_left (button_at s) - (if is_button_event ev then 1 else 0))%nat
      /\ (input_at s = G_exited -> button_at s = B_exited ->
          (main_steps_left (step s ev)
           <= main_steps_left s - (if is_main_event ev then 1 else 0))%nat)).
Proof.
  intros I Hu Hlf Hfd Hx Hok.
  destruct s as [ui gr pe sc lf fd mpc ipc bf bpc out err lg sl ex hi].
  unfold sync_inv in I. unfold alive_or_done in *. state_fields.
  destruct I as (_ & _ & _ & I4 & I5 & I6 & _).
  unfold step. cbn [exit_status].
  destruct ex as [c|].
  { right. destruct Hx as [Hx|Hx]; [discriminate|]. injection Hx as ->.
    destruct (I6 0 eq_refl) as [[_ Hm]|[[Hc _]|[Hc _]]]; try discriminate.
    rewrite (I5 Hm), (I4 (or_intror Hm)).
    unfold main_steps_left. state_fields.
    cbn [input_steps_left button_steps_left].
    repeat split; try lia. now right. }
  clear I4 I5 I6 Hx. subst lf.
  assert (Hui : (ui =? 0) = false) by (now apply Z.eqb_neq).
  assert (Hfd' : (fd >? 0) = false) by (rewrite Z.gtb_ltb; apply Z.ltb_ge; lia).
  destruct ev as [e|e|e|];
    cbn [reads_succeed is_main_event is_input_event is_button_event] in *;
    try (apply andb_true_iff in Hok; destruct Hok as [Hs Hr];
         apply negb_true_iff in Hs; destruct (read_in e) as [d|] eqn:Erd;
         [clear Hr|discriminate Hr]);
    unfold_steps; state_fields;
    rewrite ?Hui, ?Hfd', ?Hs, ?Erd;
    [destruct mpc| | |];
    break_step; unfold main_steps_left; state_fields;
    cbn [input_steps_left button_steps_left];
    first [ left; reflexivity
          | right; split;
            [ first [left; reflexivity | right; reflexivity]
            | repeat split; intros; try discriminate; try lia ] ].
Qed.

Lemma run_ending (evs : list event) :
  forall (s : state),
    sync_inv s -> user_int s <> 0 -> logfile s = false -> logfd s <= 0 ->
    alive_or_done s -> forallb reads_succeed evs = true ->
    exit_status (run evs s) = Some (killed_by SIGINT)
    \/ (alive_or_done (run evs s)
        /\ sync_inv (run evs s) /\ user_int (run evs s) <> 0
        /\ logfile (run evs s) = false /\ logfd (run evs s) <= 0
        /\ (input_steps_left (input_at (run evs s))
            <= input_steps_left (input_at s) - input_events evs)%nat
        /\ (button_steps_left (button_at (run evs s))
            <= button_steps_left (button_at s) - button_events evs)%nat
        /\ (input_at s = G_exited -> button_at s = B_exited ->
            (main_steps_left (run evs s) <= main_steps_left s - main_events evs)%nat)).
Proof.
  induction evs as [|ev evs IH]; intros s I Hu Hlf Hfd Hx Hok.
  - right. unfold input_events, button_events, main_events.
    cbn [run fold_left filter length].
    split; [exact Hx|]. split; [exact I|]. split; [exact Hu|].
    split; [exact Hlf|]. split; [exact Hfd|].
    repeat split; intros; lia.
  - cbn [forallb] in Hok. apply andb_true_iff in Hok. destruct Hok as [Hev Hok].
    change (run (ev :: evs) s) with (run evs (step s ev)).
    destruct (step_ending s ev I Hu Hlf Hfd Hx Hev) as [Hk|(Hx' & Hi & Hb & Hm)].
    { left. now rewrite (exited_run evs _ _ Hk). }
    assert (Hu' : user_int (step s ev) <> 0).
    { destruct (step_user_int s ev) as [E|E]; rewrite E; [exact Hu|discriminate]. }
    destruct (step_logfile s ev) as [El Ef].
    destruct (IH (step s ev) (step_sync_inv s ev I) Hu'
                ltac:(now rewrite El) ltac:(now rewrite Ef) Hx' Hok)
      as [Hk|(Jx & J & Ju & Jl & Jf & Ji & Jb & Jm)]; [now left|right].
    unfold input_events, button_events, main_events in *. cbn [filter].
    split; [exact Jx|]. split; [exact J|]. split; [exact Ju|].
    split; [exact Jl|]. split; [exact Jf|].
    split; [|split].
    + destruct (is_input_event ev); cbn [length] in *; lia.
    + destruct (is_button_event ev); cbn [length] in *; lia.
    + intros Ei Eb. rewrite Ei, Eb in *.
      cbn [input_steps_left button_steps_left] in Hi, Hb.
      assert (Ei' : input_at (step s ev) = G_exited)
        by (destruct (input_at (step s ev)); cbn in Hi; (reflexivity || lia)).
      assert (Eb' : button_at (step s ev) = B_exited)
        by (destruct (button_at (step s ev)); cbn in Hb; (reflexivity || lia)).
      specialize (Jm Ei' Eb'). specialize (Hm eq_refl eq_refl).
      destruct (is_main_event ev); cbn [length] in *; lia.
Qed.

(** With the flag set and the reader at its loop test or ended, an event
    that brings no SIGINT does not terminate the process by it. *)
Lemma step_no_trigger (s : state) (ev : event) :
  user_int s <> 0 -> input_at s = G_while \/ input_at s = G_exited ->
  exit_status s <> Some (killed_by SIGINT) -> no_trigger ev = true ->
  (input_at (step s ev) = G_while \/ input_at (step s ev) = G_exited)
  /\ exit_status (step s ev) <> Some (killed_by SIGINT).
Proof.
  intros Hu Hi Hx Hev.
  destruct s as [ui gr pe sc lf fd mpc ipc bf bpc out err lg sl ex hi].
  state_fields.
  unfold step. cbn [exit_status].
  destruct ex as [c|]; [split; assumption|]. clear Hx.
  assert (Hui : (ui =? 0) = false) by (now apply Z.eqb_neq).
  destruct ev as [e|e|e|]; cbn [no_trigger] in Hev; try discriminate;
    unfold_steps; state_fields; rewrite ?Hui, ?Hev;
    [destruct mpc| |];
    (destruct Hi as [->| ->]);
    break_step; state_fields;
    split; try discriminate; auto.
Qed.

Lemma run_no_trigger (evs : list event) :
  forall (s : state),
    user_int s <> 0 -> input_at s = G_while \/ input_at s = G_exited ->
    exit_status s <> Some (killed_by SIGINT) ->
    forallb no_trigger evs = true ->
    exit_status (run evs s) <> Some (killed_by SIGINT).
Proof.
  induction evs as [|ev evs IH]; intros s Hu Hi Hx Hok; [exact Hx|].
  cbn [forallb] in Hok. apply andb_true_iff in Hok. destruct Hok as [Hev Hok].
  change (run (ev :: evs) s) with (run evs (step s ev)).
  destruct (step_no_trigger s ev Hu Hi Hx Hev) as [Hi' Hx'].
  apply IH; try assumption.
  destruct (step_user_int s ev) as [E|E]; rewrite E; [exact Hu|discriminate].
Qed.

(** X8.  Without a log file, from any state the process reaches with
    [user_int] set, if [select] and [read] do not fail, the process ends
    whatever the schedule: after five steps of the reader and three of
    the button thread, and eleven steps of [main] later, it has either
    returned 0, both threads ended and the SHUTDOWN line printed exactly
    once, or been terminated by a further SIGINT.  It has returned 0 when
    the reader was at its loop test or ended and the schedule brings no
    further SIGINT (none from outside, no button press). *)
Theorem shutdown_ends_the_process :
  forall (c : config) (evs0 evs1 evs2 : list event),
    opt_logfile c = false ->
    let s := run evs0 (startup c) in
    user_int s <> 0 -> exit_status s = None ->
    forallb reads_succeed (evs1 ++ evs2) = true ->
    (5 <= input_events evs1)%nat -> (3 <= button_events evs1)%nat ->
    (11 <= main_events evs2)%nat ->
    let s' := run (evs1 ++ evs2) s in
    ((exit_status s' = Some 0
      /\ input_at s' = G_exited /\ button_at s' = B_exited
      /\ shutdown_count (stdout s') = 1%nat)
     \/ exit_status s' = Some (killed_by SIGINT))
    /\ (input_at s = G_while \/ input_at s = G_exited ->
        forallb no_trigger (evs1 ++ evs2) = true ->
        exit_status s' = Some 0 /\ shutdown_count (stdout s') = 1%nat).
Proof.
  intros c evs0 evs1 evs2 Hc s Hu Hx Hok Hi Hb Hm s'.
  assert (Main :
    (exit_status s' = Some 0
      /\ input_at s' = G_exited /\ button_at s' = B_exited
      /\ shutdown_count (stdout s') = 1%nat)
     \/ exit_status s' = Some (killed_by SIGINT)).
  { rewrite forallb_app in Hok. apply andb_true_iff in Hok.
    destruct Hok as [Hok1 Hok2].
    assert (I : sync_inv s) by apply run_sync_inv, startup_sync_inv.
    assert (L : log_inv s) by apply run_log_inv, startup_log_inv.
    assert (Hlf : logfile s = false).
    { assert (H0 : logfile (startup c) = false)
        by (unfold startup, die; rewrite Hc; break_step; reflexivity).
      unfold s. clear - H0. revert H0. generalize (startup c).
      induction evs0 as [|ev evs IH]; intros s0 H0; [exact H0|].
      change (run (ev :: evs) s0) with (run evs (step s0 ev)).
      apply IH. now rewrite (proj1 (step_logfile s0 ev)). }
    assert (Hfd : logfd s <= 0).
    { destruct L as (_ & _ & _ & L4). rewrite (L4 Hlf). lia. }
    assert (Es' : s' = run evs2 (run evs1 s))
      by (unfold s', run; apply fold_left_app).
    destruct (run_ending evs1 s I Hu Hlf Hfd (or_introl Hx) Hok1)
      as [Hk|(Hx1 & I1 & Hu1 & Hlf1 & Hfd1 & Li & Lb & _)].
    { right. rewrite Es'. now rewrite (exited_run evs2 _ _ Hk). }
    set (s1 := run evs1 s) in *.
    assert (Ei : input_at s1 = G_exited).
    { assert (input_steps_left (input_at s) <= 5)%nat
        by (destruct (input_at s); cbn; lia).
      destruct (input_at s1); cbn in Li; (reflexivity || lia). }
    assert (Eb : button_at s1 = B_exited).
    { assert (button_steps_left (button_at s) <= 3)%nat
        by (destruct (button_at s); cbn; lia).
      destruct (button_at s1); cbn in Lb; (reflexivity || lia). }
    destruct (run_ending evs2 s1 I1 Hu1 Hlf1 Hfd1 Hx1 Hok2)
      as [Hk|(Hx2 & I2 & _ & _ & _ & _ & _ & Lm)].
    { right. now rewrite Es'. }
    left. specialize (Lm Ei Eb). rewrite <- Es' in *.
    assert (Hleft : main_steps_left s' = 0%nat).
    { assert (main_steps_left s1 <= 11)%nat
        by (unfold main_steps_left; destruct (exit_status s1); [lia|];
            destruct (main_at s1); lia).
      lia. }
    assert (Hx' : exit_status s' = Some 0).
    { unfold main_steps_left in Hleft.
      destruct Hx2 as [E|E]; [|exact E].
      rewrite E in Hleft. destruct (main_at s'); discriminate. }
    destruct I2 as (_ & _ & _ & I4 & I5 & I6 & _).
    destruct (I6 0 Hx') as [[_ Hret]|[[Hc1 _]|[Hc1 _]]]; try discriminate.
    repeat split; auto.
    assert (J : shutdown_inv s').
    { rewrite Es'. unfold s1, s. repeat apply run_inv. apply startup_inv. }
    destruct J as (J1 & _). rewrite J1, Hret. reflexivity. }
  split; [exact Main|].
  intros Hin Hq.
  assert (Hnk : exit_status s' <> Some (killed_by SIGINT)).
  { apply run_no_trigger; try assumption. rewrite Hx. discriminate. }
  destruct Main as [(H0 & _ & _ & H1)|Hk]; [split; assumption|contradiction].
Qed.

End Termination.

Section Commands.

Context {FO : FloatOps}.

(** A pass through the loop with the flag clear and reports on: one
    sample with the scale of the moment, one sleep of the period of the
    moment. *)
Lemma sampler_tick_on (e : env) (t : state) :
  exit_status t = None -> main_at t = M_while -> user_int t = 0 ->
  gen_reports t <> 0 -> 0 <= write_rc e ->
  stdout (sampler_tick e t)
  = stdout t ++ [Sample (now e) (get_temperature (adc e) (scale t))]
  /\ sleeps (sampler_tick e t) = sleeps t ++ [to_unsigned (period t)]
  /\ main_at (sampler_tick e t) = M_while
  /\ exit_status (sampler_tick e t) = None.
Proof.
  intros Tx Tpc Tu Tg Tw.
  destruct t as [ui gr pe sc lf fd mpc ipc bf bpc out err lg sl ex hi].
  cbn [exit_status main_at user_int gen_reports] in *. subst.
  apply Z.eqb_neq in Tg. apply Z.ltb_ge in Tw.
  unfold sampler_tick. cbn -[get_temperature to_unsigned]. rewrite Tg.
  cbn -[get_temperature to_unsigned].
  destruct lf; rewrite ?Tw; cbn -[get_temperature to_unsigned]; repeat split.
Qed.

(** The reader from [read] to the end of its loop body, seen from the
    sampling loop: [main] is where it was. *)
Lemma reader_chunk_settings (e : env) (s : state) (d : list char) :
  exit_status s = None -> input_at s = G_read ->
  read_in e = Some d -> 0 <= write_rc e ->
  exists s1,
    reader_chunk e s = dispatch s1
    /\ buff s1 = store d (buff s)
    /\ user_int s1 = user_int s /\ gen_reports s1 = gen_reports s
    /\ period s1 = period s /\ scale s1 = scale s
    /\ stdout s1 = stdout s /\ stderr s1 = stderr s /\ sleeps s1 = sleeps s
    /\ exit_status s1 = None /\ main_at s1 = main_at s
    /\ handler_installed s1 = handler_installed s.
Proof.
  intros Hx Hpc Hrd Hw.
  unfold reader_chunk, run. cbn [fold_left].
  rewrite (step_input_read e s d Hx Hpc Hrd).
  set (s1 := input_goto _ _).
  assert (H1x : exit_status s1 = None) by exact Hx.
  assert (H1pc : input_at s1 = G_log (length (read_chunk d))) by reflexivity.
  rewrite (step_input_log e s1 _ H1x H1pc Hw).
  change (logfd s1) with (logfd s).
  destruct (logfd s >? 0);
    rewrite step_input_dispatch by (exact Hx || reflexivity);
    eexists; (split; [reflexivity|]); cbn -[store]; rewrite Hx; repeat split.
Qed.

(** X9.  PERIOD= is not validated and [sleep] takes an unsigned number:
    after the line PERIOD=z the next pass of the sampler sleeps
    [z mod 2^32] seconds, which for z = 0 is no sleep at all and for a
    negative z is at least 2^31 seconds. *)
Theorem period_command_sets_next_sleep :
  forall (e : env) (s : state) (z : Z) (junk : list char),
    exit_status s = None -> input_at s = G_read -> main_at s = M_while ->
    user_int s = 0 -> gen_reports s <> 0 ->
    INT_MIN <= z <= INT_MAX ->
    read_in e = Some (lit "PERIOD=" ++ decimal z ++ lit "
" ++ junk) ->
    0 <= write_rc e ->
    let s' := sampler_tick e (reader_chunk e s) in
    sleeps s' = sleeps s ++ [z mod 2 ^ 32]
    /\ (z = 0 -> sleeps s' = sleeps s ++ [0])
    /\ (z < 0 -> 2 ^ 31 <= z mod 2 ^ 32).
Proof.
  intros e s z junk Hx Hpc Hm Hu Hg Hz Hrd Hw s'.
  destruct (reader_chunk_settings e s _ Hx Hpc Hrd Hw)
    as (s1 & E & Hb & Hu1 & Hg1 & _ & _ & _ & _ & Hsl & Hx1 & Hm1 & _).
  assert (Hst : starts_with "PERIOD=" (buff s1)).
  { rewrite Hb. apply chunk_prefix; [cbn; tauto|reflexivity]. }
  assert (Ha : atoi (skipn 7 (buff s1)) = z).
  { rewrite Hb. destruct (store_period_line z junk (buff s)) as (r & ->).
    apply atoi_decimal; [exact Hz|reflexivity]. }
  assert (T : sleeps s' = sleeps s ++ [z mod 2 ^ 32]).
  { unfold s'. rewrite E, (dispatch_PERIOD s1 Hst), Ha.
    destruct (sampler_tick_on e (input_goto G_while (set_period z s1)))
      as (_ & S & _); cbn [exit_status main_at user_int gen_reports input_goto set_period];
      try congruence.
    rewrite S. cbn [sleeps period input_goto set_period]. now rewrite Hsl. }
  split; [exact T|]. split.
  - intros ->. exact T.
  - intros Hneg. unfold INT_MIN in Hz.
    replace (z mod 2 ^ 32) with (z + 2 ^ 32); [lia|].
    apply Z.mod_unique with (q := -1); lia.
Qed.

(** X10.  A change of scale by command takes effect at the next sample:
    after the line SCALE=C the next record printed holds the Celsius
    value of the reading, after SCALE=F the Fahrenheit value. *)
Theorem scale_command_sets_next_sample :
  forall (e : env) (s : state) (d : list char),
    exit_status s = None -> input_at s = G_read -> main_at s = M_while ->
    user_int s = 0 -> gen_reports s <> 0 ->
    read_in e = Some d -> 0 <= write_rc e ->
    let s' := sampler_tick e (reader_chunk e s) in
    (starts_with "SCALE=C" d ->
     stdout s' = stdout s ++ [Sample (now e) (get_temperature (adc e) "C"%char)])
    /\ (starts_with "SCALE=F" d ->
        stdout s' = stdout s ++ [Sample (now e) (get_temperature (adc e) "F"%char)]).
Proof.
  intros e s d Hx Hpc Hm Hu Hg Hrd Hw s'.
  destruct (reader_chunk_settings e s _ Hx Hpc Hrd Hw)
    as (s1 & E & Hb & Hu1 & Hg1 & _ & _ & Ho & _ & _ & Hx1 & Hm1 & _).
  split; intros H.
  - assert (Hst : starts_with "SCALE=C" (buff s1))
      by (rewrite Hb; apply chunk_prefix; [cbn; tauto|exact H]).
    unfold s'. rewrite E, (dispatch_SCALE_C s1 Hst).
    destruct (sampler_tick_on e (input_goto G_while (set_scale "C"%char s1)))
      as (S & _); cbn [exit_status main_at user_int gen_reports input_goto set_scale];
      try congruence.
    rewrite S. cbn [stdout scale input_goto set_scale]. now rewrite Ho.
  - assert (Hst : starts_with "SCALE=F" (buff s1))
      by (rewrite Hb; apply chunk_prefix; [cbn; tauto|exact H]).
    unfold s'. rewrite E, (dispatch_SCALE_F s1 Hst).
    destruct (sampler_tick_on e (input_goto G_while (set_scale "F"%char s1)))
      as (S & _); cbn [exit_status main_at user_int gen_reports input_goto set_scale];
      try congruence.
    rewrite S. cbn [stdout scale input_goto set_scale]. now rewrite Ho.
Qed.

(** The tests look at [buff] and at nothing else. *)
Lemma dispatch_same_buff (s1 s : state) :
  buff s1 = buff s -> globals_of s1 = globals_of s -> stderr s1 = stderr s ->
  handler_installed s1 = handler_installed s ->
  buff (dispatch s1) = buff s
  /\ globals_of (dispatch s1) = globals_of (dispatch s)
  /\ stderr (dispatch s1) = stderr (dispatch s)
  /\ input_at (dispatch s1) = input_at (dispatch s).
Proof.
  destruct s1 as [ui1 gr1 pe1 sc1 lf1 fd1 mpc1 ipc1 bf1 bpc1 out1 err1 lg1 sl1 ex1 hi1].
  destruct s as [ui gr pe sc lf fd mpc ipc bf bpc out err lg sl ex hi].
  unfold globals_of. state_fields. intros -> Hg -> ->.
  injection Hg as -> -> -> ->.
  unfold dispatch, raise, deliver, kill, signal_handler. state_fields.
  break_step; state_fields; repeat split.
Qed.

(** X11.  At the end of the input, when [read] returns 0, [buff] keeps the
    bytes of the read before and the tests run on them again: the last
    command is applied once more, or "Bad command" is printed once more,
    on every pass of the reader. *)
Theorem empty_read_repeats_last_command :
  forall (e : env) (s : state),
    exit_status s = None -> input_at s = G_read ->
    read_in e = Some [] -> 0 <= write_rc e ->
    let s' := reader_chunk e s in
    buff s' = buff s
    /\ globals_of s' = globals_of (dispatch s)
    /\ stderr s' = stderr (dispatch s)
    /\ input_at s' = input_at (dispatch s).
Proof.
  intros e s Hx Hpc Hrd Hw s'.
  destruct (reader_chunk_settings e s _ Hx Hpc Hrd Hw)
    as (s1 & E & Hb & Hu1 & Hg1 & Hp1 & Hs1 & _ & He1 & _ & _ & _ & Hh1).
  unfold s'. rewrite E. apply dispatch_same_buff.
  - rewrite Hb. unfold store, read_chunk. reflexivity.
  - unfold globals_of. congruence.
  - exact He1.
  - exact Hh1.
Qed.


Lemma atoi_not_a_number (b : list char) :
  let t := skip_space b in
  isdigit (peek t) = false ->
  (peek t = "-"%char \/ peek t = "+"%char -> isdigit (peek (tl t)) = false) ->
  atoi b = 0.
Proof.
  intros t Hd Hsign. unfold atoi. fold t.
  destruct t as [|c t'] eqn:Et; [reflexivity|].
  cbn [peek hd tl] in Hd, Hsign.
  destruct (Ascii.eqb_spec c "-"%char) as [->|Hm].
  - rewrite (digits_stop 0 t') by (apply Hsign; now left). reflexivity.
  - destruct (Ascii.eqb_spec c "+"%char) as [->|Hp].
    + rewrite (digits_stop 0 t') by (apply Hsign; now right). reflexivity.
    + rewrite (digits_stop 0 (c :: t')) by exact Hd. reflexivity.
Qed.

(** X13.  PERIOD= followed by text that is not a number sets the period
    to 0: when, white space skipped and one sign passed, the bytes behind
    the word do not begin with a digit, the command stores 0. *)
Theorem period_without_number_is_zero :
  forall (s : state),
    starts_with "PERIOD=" (buff s) ->
    let t := skip_space (skipn 7 (buff s)) in
    isdigit (peek t) = false ->
    (peek t = "-"%char \/ peek t = "+"%char -> isdigit (peek (tl t)) = false) ->
    globals_of (dispatch s) = (user_int s, gen_reports s, 0, scale s).
Proof.
  intros s H t Hd Hsign.
  rewrite (dispatch_PERIOD s H).
  unfold globals_of. cbn [user_int gen_reports period scale input_goto set_period].
  now rewrite (atoi_not_a_number _ Hd Hsign).
Qed.

End Commands.

(** ** The prologue of [main], the timer of [check_button], the bytes of a record *)

(** X14.  For a period of [check_period] milliseconds that is not
    negative, the [timespec] of [check_button] is well formed and is that
    period: the nanoseconds are in [0, 10^9), they fit an [int] as the
    product computes them, and seconds and nanoseconds add up to
    [check_period] milliseconds. *)
Theorem button_timer_is_the_period :
  forall (check_period : Z),
    0 <= check_period ->
    let tv_sec := fst (button_timer check_period) in
    let tv_nsec := snd (button_timer check_period) in
    0 <= tv_sec
    /\ 0 <= tv_nsec < 1000000000
    /\ tv_nsec <= INT_MAX
    /\ tv_sec * 1000000000 + tv_nsec = check_period * 1000000.
Proof.
  intros p Hp. unfold button_timer, INT_MAX. cbn [fst snd].
  rewrite Z.quot_div_nonneg, Z.rem_mod_nonneg by lia.
  pose proof (Z.div_mod p 1000 ltac:(lia)) as E.
  pose proof (Z.mod_pos_bound p 1000 ltac:(lia)) as B.
  pose proof (Z.div_pos p 1000 Hp ltac:(lia)) as D.
  repeat split; lia.
Qed.

Lemma main_options_usage (rs : list (char * list char)) :
  forall (o : cmdline) (a : list char),
    In ("?"%char, a) rs -> exists o', main_options rs o = Usage o'.
Proof.
  induction rs as [|[opt optarg] rs IH]; intros o a Hin; [contradiction|].
  cbn [main_options].
  destruct Hin as [E|Hin].
  - injection E as -> ->. cbn. now exists o.
  - destruct (Ascii.eqb opt "p"%char); [now apply (IH _ a)|].
    destruct (Ascii.eqb opt "s"%char); [now apply (IH _ a)|].
    destruct (Ascii.eqb opt "l"%char); [now apply (IH _ a)|].
    destruct (Ascii.eqb opt "?"%char); [now exists o|now apply (IH _ a)].
Qed.

Lemma main_options_parsed (rs : list (char * list char)) :
  forall (o : cmdline),
    (forall r, In r rs -> fst r <> "?"%char) ->
    exists o',
      main_options rs o = Parsed o'
      /\ cl_period o' = match last_optarg "p"%char rs with
                        | Some a => atoi a
                        | None => cl_period o
                        end
      /\ cl_scale o' = match last_optarg "s"%char rs with
                       | Some a => peek a
                       | None => cl_scale o
                       end
      /\ cl_logfile o' = match last_optarg "l"%char rs with
                         | Some a => Some a
                         | None => cl_logfile o
                         end.
Proof.
  induction rs as [|[opt optarg] rs IH]; intros o Hq.
  - exists o. repeat split.
  - assert (Hq' : forall r, In r rs -> fst r <> "?"%char)
      by (intros r Hr; apply Hq; now right).
    assert (Hopt : opt <> "?"%char) by (apply (Hq (opt, optarg)); now left).
    cbn [main_options last_optarg].
    destruct (Ascii.eqb_spec opt "p"%char) as [->|Np].
    { destruct (IH (mkCmdline (atoi optarg) (cl_scale o) (cl_logfile o)) Hq')
        as (o' & E & P & S & L).
      exists o'. split; [exact E|]. rewrite P, S, L. cbn.
      destruct (last_optarg "p"%char rs), (last_optarg "s"%char rs),
        (last_optarg "l"%char rs); repeat split. }
    destruct (Ascii.eqb_spec opt "s"%char) as [->|Ns].
    { destruct (IH (mkCmdline (cl_period o) (peek optarg) (cl_logfile o)) Hq')
        as (o' & E & P & S & L).
      exists o'. split; [exact E|]. rewrite P, S, L. cbn.
      destruct (last_optarg "p"%char rs), (last_optarg "s"%char rs),
        (last_optarg "l"%char rs); repeat split. }
    destruct (Ascii.eqb_spec opt "l"%char) as [->|Nl].
    { destruct (IH (mkCmdline (cl_period o) (cl_scale o) (Some optarg)) Hq')
        as (o' & E & P & S & L).
      exists o'. split; [exact E|]. rewrite P, S, L. cbn.
      destruct (last_optarg "p"%char rs), (last_optarg "s"%char rs),
        (last_optarg "l"%char rs); repeat split. }
    destruct (Ascii.eqb_spec opt "?"%char) as [->|_]; [contradiction|].
    destruct (IH o Hq') as (o' & E & P & S & L).
    exists o'. split; [exact E|]. rewrite P, S, L.
    destruct (last_optarg "p"%char rs), (last_optarg "s"%char rs),
      (last_optarg "l"%char rs); repeat split.
Qed.

Section PrologueFacts.

Context {FO : FloatOps}.

(** X15.  An option [getopt_long] does not accept ends [main] at once:
    whatever the other options are and whatever is tried afterwards, the
    process has status 1, the usage text is all the program itself has
    sent to stderr, and nothing was printed, logged or slept. *)
Theorem bad_option_prints_usage :
  forall (rs : list (char * list char)) (a : list char)
         (open_rc : Z) (aio_ok gpio_ok : bool) (stack : list char)
         (evs : list event),
    In ("?"%char, a) rs ->
    let s := run evs (main_prologue rs open_rc aio_ok gpio_ok stack) in
    exit_status s = Some 1
    /\ stderr s = [Fprintf usage_text]
    /\ stdout s = [] /\ log s = [] /\ sleeps s = [].
Proof.
  intros rs a open_rc aio_ok gpio_ok stack evs Hin s.
  destruct (main_options_usage rs cmdline_defaults a Hin) as (o' & E).
  unfold s, main_prologue. rewrite E.
  rewrite (exited_run evs _ 1) by reflexivity.
  repeat split.
Qed.

(** X16.  When every option is accepted, the options are applied from
    left to right and the last of a kind wins: [period] is [atoi] of the
    argument of the last --period (1 without one, and any integer passes,
    zero and negative ones too), [scale] is the first character of the
    argument of the last --scale ('F' without one, NUL for an empty
    argument), and a log file is opened exactly when --log was given. *)
Theorem last_option_wins :
  forall (rs : list (char * list char))
         (open_rc : Z) (aio_ok gpio_ok : bool) (stack : list char),
    (forall r, In r rs -> fst r <> "?"%char) ->
    main_prologue rs open_rc aio_ok gpio_ok stack
    = startup (mkConfig
                 match last_optarg "p"%char rs with
                 | Some a => atoi a
                 | None => 1
                 end
                 match last_optarg "s"%char rs with
                 | Some a => peek a
                 | None => "F"%char
                 end
                 match last_optarg "l"%char rs with
                 | Some _ => true
                 | None => false
                 end
                 open_rc aio_ok gpio_ok stack).
Proof.
  intros rs open_rc aio_ok gpio_ok stack Hq.
  destruct (main_options_parsed rs cmdline_defaults Hq) as (o' & E & P & S & L).
  unfold main_prologue. rewrite E. unfold has_logfile. rewrite P, S, L.
  cbn [cl_period cl_scale cl_logfile cmdline_defaults].
  destruct (last_optarg "l"%char rs); reflexivity.
Qed.

Lemma firstn_repeat_le (x : char) (n : nat) :
  forall m, (n <= m)%nat -> firstn n (repeat x m) = repeat x n.
Proof.
  induction n as [|n IH]; intros m H; [reflexivity|].
  destruct m as [|m]; [lia|]. cbn [repeat firstn]. f_equal. apply IH. lia.
Qed.

Lemma c_string_padded (text : list char) (n : nat) :
  ~ In NUL text -> c_string (text ++ repeat NUL (S n)) = text.
Proof.
  induction text as [|c text IH]; intros Hn.
  - reflexivity.
  - cbn [app c_string].
    destruct (Ascii.eqb_spec c NUL) as [->|_]; [exfalso; apply Hn; now left|].
    rewrite IH; [reflexivity|]. intros H. apply Hn. now right.
Qed.

(** X17.  The record written to the log is always 32 bytes: when the
    text of a record has at most 31 characters, none of them NUL, the
    buffer holds the text followed by NUL bytes up to 32, and what is
    printed on stdout is the text alone.  The text of a SHUTDOWN record is
    10 characters longer than the time, that of a sample 2 characters
    longer than the time and the temperature together. *)
Theorem log_record_is_padded :
  forall (fmt : float -> list char) (r : record),
    (length (record_text fmt r) <= 31)%nat ->
    ~ In NUL (record_text fmt r) ->
    length (buff32 (record_text fmt r)) = 32%nat
    /\ buff32 (record_text fmt r)
       = record_text fmt r ++ repeat NUL (32 - length (record_text fmt r))
    /\ c_string (buff32 (record_text fmt r)) = record_text fmt r
    /\ length (record_text fmt r)
       = match r with
         | Sample timebuff temperature =>
             (length (lit timebuff) + length (fmt temperature) + 2)%nat
         | Shutdown timebuff => (length (lit timebuff) + 10)%nat
         end.
Proof.
  intros fmt r Hlen Hnul.
  set (text := record_text fmt r) in *.
  assert (E : buff32 text = text ++ repeat NUL (32 - length text)).
  { unfold buff32. rewrite firstn_app, firstn_all2 by lia.
    f_equal. apply firstn_repeat_le. lia. }
  repeat apply conj.
  - rewrite E, length_app, repeat_length. lia.
  - exact E.
  - rewrite E. destruct (32 - length text)%nat as [|n] eqn:En; [lia|].
    now apply c_string_padded.
  - unfold text. destruct r as [tb t|tb]; cbn [record_text].
    + rewrite length_app. cbn [length]. rewrite length_app. cbn [length]. lia.
    + rewrite length_app. reflexivity.
Qed.

End PrologueFacts.

Section Paused.

Context {FO : FloatOps}.

Lemma step_paused (s : state) (ev : event) :
  gen_reports s = 0 -> between_samples (main_at s) = true ->
  is_input_event ev = false ->
  gen_reports (step s ev) = 0
  /\ between_samples (main_at (step s ev)) = true
  /\ sample_count (stdout (step s ev)) = sample_count (stdout s)
  /\ sleeps (step s ev) = sleeps s.
Proof.
  intros Hg Hb Hev.
  destruct s as [ui gr pe sc lf fd mpc ipc bf bpc out err lg sl ex hi].
  state_fields. subst gr.
  unfold step. cbn [exit_status].
  destruct ex as [c|]; [repeat split; assumption|].
  destruct ev as [e|e|e|]; try discriminate;
    unfold_steps; state_fields;
    [destruct mpc; try discriminate| |];
    break_step; state_fields; cbn [between_samples];
    rewrite ?sample_count_app; cbn [is_shutdown];
    repeat split; try discriminate; try lia; try assumption.
Qed.

(** X18.  While reports are stopped and the reader takes no step, no
    sample is printed and [sleep] is not called, whatever the schedule of
    the other threads and signals: from a state with [gen_reports] clear
    and [main] not in the middle of a sample, the count of samples and
    the list of sleeps stay as they are. *)
Theorem stopped_reports_print_no_sample :
  forall (evs : list event) (s : state),
    gen_reports s = 0 -> between_samples (main_at s) = true ->
    forallb (fun ev => negb (is_input_event ev)) evs = true ->
    sample_count (stdout (run evs s)) = sample_count (stdout s)
    /\ sleeps (run evs s) = sleeps s.
Proof.
  induction evs as [|ev evs IH]; intros s Hg Hb Hevs; [split; reflexivity|].
  cbn [forallb] in Hevs. apply andb_true_iff in Hevs. destruct Hevs as [Hev Hevs].
  apply negb_true_iff in Hev.
  destruct (step_paused s ev Hg Hb Hev) as (Hg' & Hb' & Hc & Hs).
  destruct (IH (step s ev) Hg' Hb' Hevs) as (IH1 & IH2).
  unfold run in *. cbn [fold_left]. split; congruence.
Qed.

End Paused.

(** * The further theorems at the sample inputs *)

Lemma threads_end_only_after_shutdown_witness :
  exit_status (run one_trigger fresh) = Some 0
  /\ user_int (run one_trigger fresh) <> 0
  /\ input_at (run one_trigger fresh) = G_exited
  /\ button_at (run one_trigger fresh) = B_exited.
Proof.
  split; [reflexivity|].
  pose proof (@threads_end_only_after_shutdown SymFloat default_config one_trigger)
    as (_ & _ & _ & H).
  destruct (H eq_refl) as (H1 & _ & H3 & H4).
  split; [exact H1|]. split; [exact H3|exact H4].
Defined.


Lemma log_follows_stdout_witness :
  logfile (run one_trigger fresh_logged) = true
  /\ logged_records (log (run one_trigger fresh_logged))
     ++ pending (main_at (run one_trigger fresh_logged))
     = stdout (run one_trigger fresh_logged).
Proof.
  split; [reflexivity|].
  pose proof (@log_follows_stdout SymFloat
                (mkConfig 1 "F"%char true 3 true true []) one_trigger) as (H & _).
  exact (H eq_refl).
Defined.

Lemma no_logfile_no_log_witness :
  opt_logfile default_config = false /\ log (run one_trigger fresh) = [].
Proof.
  split; [reflexivity|].
  exact (@no_logfile_no_log SymFloat default_config one_trigger eq_refl).
Defined.

Lemma settings_have_one_writer_witness :
  forallb (fun ev => negb (is_input_event ev)) main_winds_down = true
  /\ settings_of (run main_winds_down paused) = settings_of paused.
Proof.
  split; [reflexivity|].
  pose proof (@settings_have_one_writer SymFloat main_winds_down paused) as (H & _).
  exact (H eq_refl).
Defined.

Lemma settings_frozen_after_reader_witness :
  input_at after_off = G_exited
  /\ settings_of (run threads_wind_down after_off) = settings_of after_off.
Proof.
  split; [reflexivity|].
  exact (proj2 (@settings_frozen_after_reader SymFloat threads_wind_down after_off eq_refl)).
Defined.

Lemma shutdown_ends_the_process_witness :
  opt_logfile default_config = false
  /\ user_int flagged <> 0 /\ exit_status flagged = None
  /\ (input_at flagged = G_while \/ input_at flagged = G_exited)
  /\ forallb no_trigger (threads_wind_down ++ main_winds_down) = true
  /\ exit_status (run (threads_wind_down ++ main_winds_down) flagged) = Some 0
  /\ shutdown_count (stdout (run (threads_wind_down ++ main_winds_down) flagged))
     = 1%nat.
Proof.
  assert (Hu : user_int flagged <> 0) by discriminate.
  assert (Hin : input_at flagged = G_while \/ input_at flagged = G_exited)
    by (left; reflexivity).
  split; [reflexivity|]. split; [exact Hu|]. split; [reflexivity|].
  split; [exact Hin|]. split; [reflexivity|].
  assert (Hi : (5 <= input_events threads_wind_down)%nat) by (vm_compute; lia).
  assert (Hb : (3 <= button_events threads_wind_down)%nat) by (vm_compute; lia).
  assert (Hm : (11 <= main_events main_winds_down)%nat) by (vm_compute; lia).
  exact (proj2 (@shutdown_ends_the_process SymFloat default_config [Ev_sigint]
                  threads_wind_down main_winds_down eq_refl Hu eq_refl eq_refl
                  Hi Hb Hm) Hin eq_refl).
Defined.

Lemma period_command_sets_next_sleep_witness :
  INT_MIN <= -5 <= INT_MAX
  /\ sleeps (sampler_tick env_period (reader_chunk env_period (at_read fresh)))
     = [4294967291].
Proof.
  assert (Hz : INT_MIN <= -5 <= INT_MAX) by (unfold INT_MIN, INT_MAX; lia).
  split; [exact Hz|].
  exact (proj1 (@period_command_sets_next_sleep SymFloat env_period (at_read fresh)
                  (-5) [] eq_refl eq_refl eq_refl eq_refl
                  ltac:(discriminate) Hz eq_refl ltac:(discriminate))).
Defined.

Lemma scale_command_sets_next_sample_witness :
  starts_with "SCALE=C" (lit "SCALE=C
")
  /\ stdout (sampler_tick env_scale_c (reader_chunk env_scale_c (at_read fresh)))
     = [Sample "12:00:00" (get_temperature 512 "C"%char)].
Proof.
  split; [reflexivity|].
  pose proof (@scale_command_sets_next_sample SymFloat env_scale_c (at_read fresh)
                (lit "SCALE=C
") eq_refl eq_refl eq_refl eq_refl
                ltac:(discriminate) eq_refl ltac:(discriminate)) as (H & _).
  exact (H eq_refl).
Defined.

Lemma empty_read_repeats_last_command_witness :
  read_in env_eof = Some []
  /\ globals_of (reader_chunk env_eof (at_read paused))
     = globals_of (dispatch (at_read paused))
  /\ gen_reports (dispatch (at_read paused)) = 0.
Proof.
  split; [reflexivity|]. split; [|reflexivity].
  pose proof (@empty_read_repeats_last_command SymFloat env_eof (at_read paused)
                eq_refl eq_refl eq_refl ltac:(discriminate)) as (_ & H & _).
  exact H.
Defined.


Lemma period_without_number_is_zero_witness :
  starts_with "PERIOD=" (buff period_abc)
  /\ globals_of (dispatch period_abc) = (0, 1, 0, "F"%char).
Proof.
  split; [reflexivity|].
  exact (@period_without_number_is_zero SymFloat period_abc eq_refl eq_refl
           (fun H => match H with
                     | or_introl E => ltac:(discriminate E)
                     | or_intror E => ltac:(discriminate E)
                     end)).
Defined.

Lemma button_timer_is_the_period_witness :
  0 <= 10 /\ button_timer 10 = (0, 10000000)
  /\ fst (button_timer 10) * 1000000000 + snd (button_timer 10) = 10 * 1000000.
Proof.
  split; [discriminate|]. split; [reflexivity|].
  pose proof (button_timer_is_the_period 10 ltac:(discriminate)) as (_ & _ & _ & H).
  exact H.
Defined.

Lemma bad_option_prints_usage_witness :
  In ("?"%char, []) (some_options ++ [("?"%char, [])])
  /\ exit_status (run two_triggers
                    (@main_prologue SymFloat (some_options ++ [("?"%char, [])])
                       3 true true [])) = Some 1.
Proof.
  assert (Hin : In ("?"%char, []) (some_options ++ [("?"%char, [])])).
  { cbn. tauto. }
  split; [exact Hin|].
  exact (proj1 (@bad_option_prints_usage SymFloat (some_options ++ [("?"%char, [])])
                  [] 3 true true [] two_triggers Hin)).
Defined.

Lemma last_option_wins_witness :
  (forall r, In r some_options -> fst r <> "?"%char)
  /\ @main_prologue SymFloat some_options 3 true true []
     = startup (mkConfig (-3) "C"%char true 3 true true []).
Proof.
  assert (Hq : forall r, In r some_options -> fst r <> "?"%char).
  { intros r Hr. cbn in Hr.
    repeat (destruct Hr as [<-|Hr]; [discriminate|]). contradiction. }
  split; [exact Hq|].
  exact (@last_option_wins SymFloat some_options 3 true true [] Hq).
Defined.

Lemma log_record_is_padded_witness :
  (length (@record_text SymFloat fmt_sample (Shutdown "12:00:00")) <= 31)%nat
  /\ length (buff32 (@record_text SymFloat fmt_sample (Shutdown "12:00:00"))) = 32%nat
  /\ c_string (buff32 (@record_text SymFloat fmt_sample (Shutdown "12:00:00")))
     = lit "12:00:00 SHUTDOWN
".
Proof.
  assert (Hl : (length (@record_text SymFloat fmt_sample (Shutdown "12:00:00")) <= 31)%nat)
    by (vm_compute; lia).
  assert (Hn : ~ In NUL (@record_text SymFloat fmt_sample (Shutdown "12:00:00"))).
  { cbn. intuition discriminate. }
  split; [exact Hl|].
  pose proof (@log_record_is_padded SymFloat fmt_sample (Shutdown "12:00:00") Hl Hn)
    as (H1 & _ & H3 & _).
  split; [exact H1|exact H3].
Defined.

Lemma stopped_reports_print_no_sample_witness :
  gen_reports paused = 0 /\ between_samples (main_at paused) = true
  /\ sample_count (stdout (run main_winds_down paused)) = sample_count (stdout paused)
  /\ sleeps (run main_winds_down paused) = sleeps paused.
Proof.
  split; [reflexivity|]. split; [reflexivity|].
  exact (@stopped_reports_print_no_sample SymFloat main_winds_down paused
           eq_refl eq_refl eq_refl).
Defined.
